(** * Virtual Media Player: gesture classification, zone lines, player factory

    A shallow embedding of [main.py] and [interface.py].

    - Python [int] is [Z]; Python [float] is IEEE binary64, taken from the
      Standard Library's bit-level specification [SpecFloat] with
      [prec = 53] and [emax = 1024].
    - A raised exception is the [Raise] branch of [result]; code that both
      raises and drives the media player runs in the monad [M], which threads
      the player's world through every call.
    - [o_media_player] is a record of five world transformers; the gesture
      code is written once, for every such record. *)

From Stdlib Require Import ZArith Zpower List String Ascii Bool Lia SpecFloat.
Import ListNotations.

Local Open Scope string_scope.
Local Open Scope list_scope.
Local Open Scope Z_scope.

(** ** Exceptions *)

Inductive exn : Type :=
| IndexError
| KeyError
| OverflowError
| ZeroDivisionError
| ValueError (msg : string).

Inductive result (A : Type) : Type :=
| Ok (a : A)
| Raise (e : exn).

Arguments Ok {A} a.
Arguments Raise {A} e.

Definition rbind {A B : Type} (r : result A) (k : A -> result B) : result B :=
  match r with
  | Ok a => k a
  | Raise e => Raise e
  end.

Declare Scope result_scope.
Delimit Scope result_scope with result.
Notation "x <- r ;; k" := (rbind r (fun x => k))
  (at level 100, r at next level, right associativity) : result_scope.

(** ** Python floats *)

Module PyFloat.

Definition prec : Z := 53.
Definition emax : Z := 1024.

Definition float : Type := spec_float.

(** [float(n)] for an [int]: rounded to nearest even, [OverflowError]
    where the magnitude does not fit. *)
Definition of_int (n : Z) : result float :=
  match binary_normalize prec emax n 0 false with
  | S754_infinity _ => Raise OverflowError
  | f => Ok f
  end.

Definition is_zero (f : float) : bool :=
  match f with
  | S754_zero _ => true
  | _ => false
  end.

(** [x * y] on two floats. *)
Definition mul (x y : float) : float := SFmul prec emax x y.

(** [x / y] on two floats. *)
Definition truediv (x y : float) : result float :=
  if is_zero y then Raise ZeroDivisionError else Ok (SFdiv prec emax x y).

(** [a / b] on two ints: the correctly rounded quotient.  For operands up
    to magnitude [2^53], which convert exactly, that is the quotient of the
    two doubles; the model is meant for such operands only. *)
Definition int_truediv (a b : Z) : result float :=
  if b =? 0 then Raise ZeroDivisionError
  else (x <- of_int a ;; y <- of_int b ;; Ok (SFdiv prec emax x y))%result.

(** [x * n] with a float on the left and an int on the right. *)
Definition mul_int (x : float) (n : Z) : result float :=
  (y <- of_int n ;; Ok (mul x y))%result.

(** [x / n] with a float on the left and an int on the right. *)
Definition truediv_int (x : float) (n : Z) : result float :=
  (y <- of_int n ;; truediv x y)%result.

(** Three-way comparison of an int with a float.  Python compares the two
    mathematical values exactly; [None] is the unordered case (NaN). *)
Definition int_compare (x : Z) (f : float) : option comparison :=
  match f with
  | S754_nan => None
  | S754_infinity s => Some (if s then Gt else Lt)
  | S754_zero _ => Some (x ?= 0)
  | S754_finite s m e =>
      let v := cond_Zopp s (Zpos m) in
      Some (if 0 <=? e then x ?= v * 2 ^ e else x * 2 ^ (- e) ?= v)
  end.

(** [x < f] and [x > f] for an int [x] and a float [f]. *)
Definition int_lt (x : Z) (f : float) : bool :=
  match int_compare x f with
  | Some Lt => true
  | _ => false
  end.

Definition int_gt (x : Z) (f : float) : bool :=
  match int_compare x f with
  | Some Gt => true
  | _ => false
  end.

(** The double whose value is [c * 2^E], for a positive [c] below [2^53]:
    the mantissa is [c] shifted up to 53 digits. *)
Definition canon (s : bool) (c : Z) (E : Z) : float :=
  let k := prec - Zdigits2 c in
  S754_finite s (Z.to_pos (c * 2 ^ k)) (E - k).

(** [f] is exactly the rational [a / b], for a positive [b]. *)
Definition is_ratio (f : float) (a b : Z) : Prop :=
  match f with
  | S754_zero _ => a = 0
  | S754_finite s m e =>
      if 0 <=? e then cond_Zopp s (Zpos m) * 2 ^ e * b = a
      else cond_Zopp s (Zpos m) * b = a * 2 ^ (- e)
  | _ => False
  end.

End PyFloat.

Import PyFloat.

(** ** [Screen.line_pos] *)

(** A C [int] as ctypes hands it to Python: the value wrapped into
    [-2^31, 2^31). *)
Definition c_int (v : Z) : Z := (v + 2 ^ 31) mod 2 ^ 32 - 2 ^ 31.

(** [user32.GetSystemMetrics(n)]: [user32] is what the system answers for
    each metric, and the call returns it as a C [int]. *)
Definition GetSystemMetrics (user32 : Z -> Z) (n : Z) : Z := c_int (user32 n).

(** Lines 69 and 70, on the pair [screen_size] of line 68. *)
Definition screen_first_line_x (screen_size : Z * Z) : result float :=
  int_truediv (fst screen_size * 555) 1920.

Definition screen_second_line_x (screen_size : Z * Z) : result float :=
  int_truediv (fst screen_size * 1365) 1920.

Definition line_pos (user32 : Z -> Z) : result (float * float) :=
  let screen_size := (GetSystemMetrics user32 0, GetSystemMetrics user32 1) in
  (x1 <- screen_first_line_x screen_size ;;
   x2 <- screen_second_line_x screen_size ;;
   t1 <- mul_int x1 640 ;;
   pos_line1 <- truediv_int t1 (fst screen_size) ;;
   t2 <- mul_int x2 640 ;;
   pos_line2 <- truediv_int t2 (fst screen_size) ;;
   Ok (pos_line1, pos_line2))%result.

(** A system whose screen is [width] by [height]. *)
Definition screen (width height : Z) (n : Z) : Z :=
  if n =? 0 then width else height.

(** ** The monad of the frame loop

    A computation of [M W A] starts in a world [w], ends in a world and either
    returns a value or raises; what was done to the world before a raise
    stays done. *)

Definition M (W A : Type) : Type := W -> result A * W.

Definition ret {W A : Type} (a : A) : M W A := fun w => (Ok a, w).

Definition bind {W A B : Type} (c : M W A) (k : A -> M W B) : M W B :=
  fun w =>
    match c w with
    | (Ok a, w') => k a w'
    | (Raise e, w') => (Raise e, w')
    end.

Definition lift {W A : Type} (r : result A) : M W A := fun w => (r, w).

(** A call of a method that returns [None] and acts on the world. *)
Definition call {W : Type} (f : W -> W) : M W unit := fun w => (Ok tt, f w).

Declare Scope M_scope.
Delimit Scope M_scope with M.
Notation "x <- c ;; k" := (bind c (fun x => k))
  (at level 100, c at next level, right associativity) : M_scope.
Notation "c ;;; k" := (bind c (fun _ => k))
  (at level 100, right associativity) : M_scope.

(** ** [interface.py] *)

(** The five methods every media player answers to. *)
Record Command (W : Type) : Type := {
  play_pause : W -> W;
  volume_decrease : W -> W;
  volume_increase : W -> W;
  forward : W -> W;
  backward : W -> W
}.

Arguments play_pause {W} _ _.
Arguments volume_decrease {W} _ _.
Arguments volume_increase {W} _ _.
Arguments forward {W} _ _.
Arguments backward {W} _ _.

(** The bodies of the base class are all [pass]. *)
Definition Command_base (W : Type) : Command W := {|
  play_pause := fun w => w;
  volume_decrease := fun w => w;
  volume_increase := fun w => w;
  forward := fun w => w;
  backward := fun w => w
|}.

(** What [pyautogui.press] and [time.sleep] leave behind, oldest first. *)
Inductive event : Type :=
| press (key : string)
| sleep (seconds : float).

(** The literal [0.7] as a double. *)
Definition seconds_0_7 : float := S754_finite false 6305039478318694 (-53).

Definition Youtube : Command (list event) := {|
  play_pause := fun w => w ++ [press "Space"; sleep seconds_0_7];
  volume_decrease := fun w => w ++ [press "Down"; sleep seconds_0_7];
  volume_increase := fun w => w ++ [press "Up"; sleep seconds_0_7];
  forward := fun w => w ++ [press "Right"; sleep seconds_0_7];
  backward := fun w => w ++ [press "Left"; sleep seconds_0_7]
|}.

(** [MediaPlayerFactory.create_media_player] *)
Definition create_media_player (media_ply_name : string)
  : result (Command (list event)) :=
  let name := media_ply_name in
  if String.eqb name "youtube" then Ok Youtube
  else Raise (ValueError "The application does not work on this media player!").

(** [str.lower] on ASCII text. *)
Definition lower_ascii (c : ascii) : ascii :=
  let n := nat_of_ascii c in
  if (65 <=? n)%nat && (n <=? 90)%nat then ascii_of_nat (n + 32) else c.

Fixpoint lower (s : string) : string :=
  match s with
  | EmptyString => EmptyString
  | String c s' => String (lower_ascii c) (lower s')
  end.

(** The module-level selection of [main.py]: the name typed by the user is
    lowered and handed to the factory. *)
Definition select_media_player (o_media_player_name : string)
  : result (Command (list event)) :=
  create_media_player (lower o_media_player_name).

(** ** Python lists *)

(** [l[i]], with Python's negative indices. *)
Definition getitem {A : Type} (l : list A) (i : Z) : result A :=
  let n := Z.of_nat (List.length l) in
  let j := if i <? 0 then i + n else i in
  if (0 <=? j) && (j <? n) then
    match nth_error l (Z.to_nat j) with
    | Some a => Ok a
    | None => Raise IndexError
    end
  else Raise IndexError.

(** [c1 and c2] on two conditions that may raise: [c2] is evaluated only
    when [c1] is true. *)
Definition pand (c1 c2 : result bool) : result bool :=
  (b <- c1 ;; if b then c2 else Ok false)%result.

(** ** [HandDetection.hand_type] *)

(** One entry of a hand's [classification] list; only [label] is read. *)
Record Classification : Type := { label_of : option string }.

(** [MessageToDict(h)['classification'][0]['label']]: a field that is not
    set is not a key of the dictionary. *)
Definition classification_label (hand_handedness : list Classification)
  : result string :=
  match hand_handedness with
  | [] => Raise KeyError
  | c :: _ =>
      match label_of c with
      | Some l => Ok l
      | None => Raise KeyError
      end
  end.

Fixpoint hand_type_loop (hands : list (list Classification))
                        (left_or_right : option string)
  : result (option string) :=
  match hands with
  | [] => Ok left_or_right
  | hand_handedness :: rest =>
      (l <- classification_label hand_handedness ;;
       hand_type_loop rest (Some l))%result
  end.

(** [multi_handedness] is [None] or a list with one entry per hand. *)
Definition hand_type (multi_handedness : option (list (list Classification)))
  : result (option string) :=
  let left_or_right := None in
  match multi_handedness with
  | Some (h :: hs) => hand_type_loop (h :: hs) left_or_right
  | _ => Ok left_or_right
  end.

(** ** [HandGesture] *)

(** One entry [[index, coordinate_x, coordinate_y]] of the position list. *)
Record position : Type := {
  index : Z;
  coordinate_x : Z;
  coordinate_y : Z
}.

Record HandGesture : Type := {
  o_pos_lst : list position;
  lines_pos : float * float;
  label : option string
}.

(** [l[i][1]] and [l[i][2]]. *)
Definition item1 (l : list position) (i : Z) : result Z :=
  (p <- getitem l i ;; Ok (coordinate_x p))%result.

Definition item2 (l : list position) (i : Z) : result Z :=
  (p <- getitem l i ;; Ok (coordinate_y p))%result.

(** [a < b] and [a > b] on two ints that may raise, left operand first. *)
Definition lt_ints (a b : result Z) : result bool :=
  (x <- a ;; y <- b ;; Ok (x <? y))%result.

Definition gt_ints (a b : result Z) : result bool :=
  (x <- a ;; y <- b ;; Ok (x >? y))%result.

(** [label == s], where [label] is a string or [None]. *)
Definition label_eq (label : option string) (s : string) : bool :=
  match label with
  | Some l => String.eqb l s
  | None => false
  end.

(** The condition of line 227, [o_pos_lst[8][2] < o_pos_lst[6][2]], which
    is also the second operand of the condition of lines 245 and 246. *)
Definition index_recheck (self : HandGesture) : result bool :=
  lt_ints (item2 (o_pos_lst self) 8) (item2 (o_pos_lst self) 6).

(** The first operand of the condition of lines 245 and 246. *)
Definition middle_recheck (self : HandGesture) : result bool :=
  lt_ints (item2 (o_pos_lst self) 12) (item2 (o_pos_lst self) 10).

Section Gesture.

Context {W : Type}.
Variable o_media_player : Command W.

Definition total_fingers_0 (self : HandGesture) : M W unit :=
  (c <- lift (pand
       (x <- item1 (o_pos_lst self) 9 ;;
        Ok (int_gt x (fst (lines_pos self))))%result
       (x <- item1 (o_pos_lst self) 9 ;;
        Ok (int_lt x (snd (lines_pos self))))%result) ;;
   if c then call (play_pause o_media_player) else ret tt)%M.

Definition total_fingers_1 (self : HandGesture) : M W unit :=
  (c <- lift (index_recheck self) ;;
   if c then
     (c1 <- lift (pand
          (x <- item1 (o_pos_lst self) 8 ;;
           Ok (int_lt x (fst (lines_pos self))))%result
          (Ok (label_eq (label self) "Left"))) ;;
      (if c1 then call (backward o_media_player) else ret tt) ;;;
      c2 <- lift (pand
          (x <- item1 (o_pos_lst self) 8 ;;
           Ok (int_gt x (snd (lines_pos self))))%result
          (Ok (label_eq (label self) "Right"))) ;;
      if c2 then call (forward o_media_player) else ret tt)
   else ret tt)%M.

Definition total_fingers_2 (self : HandGesture) : M W unit :=
  (c <- lift (pand (middle_recheck self) (index_recheck self)) ;;
   if c then
     (c1 <- lift (pand
          (x <- item1 (o_pos_lst self) 9 ;;
           Ok (int_lt x (fst (lines_pos self))))%result
          (Ok (label_eq (label self) "Left"))) ;;
      (if c1 then call (volume_decrease o_media_player) else ret tt) ;;;
      c2 <- lift (pand
          (x <- item1 (o_pos_lst self) 9 ;;
           Ok (int_gt x (snd (lines_pos self))))%result
          (Ok (label_eq (label self) "Right"))) ;;
      if c2 then call (volume_increase o_media_player) else ret tt)
   else ret tt)%M.

End Gesture.

(** ** The body of the frame loop of [main] *)

Definition finger_tips : list Z := [4; 8; 12; 16; 20].

(** [o_position_list[finger_tips[i]][2]] and
    [o_position_list[finger_tips[i]-2][2]] *)
Definition tip_y (o_position_list : list position) (i : Z) : result Z :=
  (t <- getitem finger_tips i ;; item2 o_position_list t)%result.

Definition joint_y (o_position_list : list position) (i : Z) : result Z :=
  (t <- getitem finger_tips i ;; item2 o_position_list (t - 2))%result.

(** One turn of [for i in range(1, 5)]: the two [if]s on [fingers]. *)
Definition fingers_step (o_position_list : list position)
                        (fingers : list Z) (i : Z) : result (list Z) :=
  (c1 <- lt_ints (tip_y o_position_list i) (joint_y o_position_list i) ;;
   let fingers := if c1 then fingers ++ [1] else fingers in
   c2 <- gt_ints (tip_y o_position_list i) (joint_y o_position_list i) ;;
   let fingers := if c2 then fingers ++ [0] else fingers in
   Ok fingers)%result.

Fixpoint fingers_loop (o_position_list : list position)
                      (range : list Z) (fingers : list Z)
  : result (list Z) :=
  match range with
  | [] => Ok fingers
  | i :: range' =>
      (fingers' <- fingers_step o_position_list fingers i ;;
       fingers_loop o_position_list range' fingers')%result
  end.

(** [fingers.count(1)] after the loop. *)
Definition total_fingers (o_position_list : list position) : result nat :=
  (fingers <- fingers_loop o_position_list [1; 2; 3; 4] [] ;;
   Ok (count_occ Z.eq_dec fingers 1))%result.

Section Frame.

Context {W : Type}.
Variable o_media_player : Command W.

(** Lines 290 to 309: what one frame does once [label] and
    [o_position_list] are known. *)
Definition frame (o_position_list : list position)
                 (lines_pos_x : float * float)
                 (label : option string) : M W unit :=
  if negb (List.length o_position_list =? 0)%nat then
    let gesture := {| o_pos_lst := o_position_list;
                      lines_pos := lines_pos_x;
                      label := label |} in
    (total_fingers <- lift (total_fingers o_position_list) ;;
     (if (total_fingers =? 0)%nat
      then total_fingers_0 o_media_player gesture else ret tt) ;;;
     (if (total_fingers =? 1)%nat
      then total_fingers_1 o_media_player gesture else ret tt) ;;;
     (if (total_fingers =? 2)%nat
      then total_fingers_2 o_media_player gesture else ret tt))%M
  else ret tt.

End Frame.

(** ** A player that only records which method was called *)

Inductive operation : Type :=
| PlayPause | VolumeDown | VolumeUp | SeekForward | SeekBackward.

Definition Recorder : Command (list operation) := {|
  play_pause := fun w => w ++ [PlayPause];
  volume_decrease := fun w => w ++ [VolumeDown];
  volume_increase := fun w => w ++ [VolumeUp];
  forward := fun w => w ++ [SeekForward];
  backward := fun w => w ++ [SeekBackward]
|}.

Definition perform {W : Type} (player : Command W) (op : operation)
  : W -> W :=
  match op with
  | PlayPause => play_pause player
  | VolumeDown => volume_decrease player
  | VolumeUp => volume_increase player
  | SeekForward => forward player
  | SeekBackward => backward player
  end.

(** Calling the methods named by [ops] on [player], first to last. *)
Definition perform_all {W : Type} (player : Command W)
                       (ops : list operation) (w : W) : W :=
  fold_left (fun w' op => perform player op w') ops w.

(** The methods called by one frame, in order. *)
Definition decisions (o_position_list : list position)
                     (lines_pos_x : float * float)
                     (label : option string) : result unit * list operation :=
  frame Recorder o_position_list lines_pos_x label [].

(** ** Letter case

    Two characters that are the same letter up to case, and two strings that
    are so character by character. *)

Definition same_letter (a b : ascii) : bool :=
  let x := nat_of_ascii a in
  let y := nat_of_ascii b in
  ((x =? y)
   || ((65 <=? x) && (x <=? 90) && (y =? x + 32))
   || ((65 <=? y) && (y <=? 90) && (x =? y + 32)))%nat.

Fixpoint case_variant (s t : string) : bool :=
  match s, t with
  | EmptyString, EmptyString => true
  | String a s', String b t' => same_letter a b && case_variant s' t'
  | _, _ => false
  end.

(** ** The recheck as the specification words it

    Following the spec's words: the second check at count 1 is said to
    compare the index fingertip with the base knuckle of the same finger,
    which is landmark 5, where the count compares it with landmark 6. *)
Definition spec_index_recheck (self : HandGesture) : result bool :=
  lt_ints (item2 (o_pos_lst self) 8) (item2 (o_pos_lst self) 5).

(** ** Zones

    The three zone tests of the gesture methods on an [x] coordinate. *)

Definition centre_zone (lines : float * float) (x : Z) : bool :=
  int_gt x (fst lines) && int_lt x (snd lines).

Definition left_zone (lines : float * float) (x : Z) : bool :=
  int_lt x (fst lines).

Definition right_zone (lines : float * float) (x : Z) : bool :=
  int_gt x (snd lines).

(** ** Counting

    [above tip joint] is the comparison [tip[2] < joint[2]] of the loop, and
    [b2n] its contribution to [fingers.count(1)]. *)

Definition above (tip joint : position) : bool :=
  coordinate_y tip <? coordinate_y joint.

Definition b2n (b : bool) : nat := if b then 1%nat else 0%nat.

(** ** Sample data *)

(** A hand of 21 landmarks given by its [y] column and one [x] for all. *)
Definition hand_of (x : Z) (ys : list Z) : list position :=
  map (fun iy => {| index := Z.of_nat (fst iy);
                    coordinate_x := x;
                    coordinate_y := snd iy |})
      (combine (seq 0 (List.length ys)) ys).

Definition one_hand (l : string) : list Classification :=
  [{| label_of := Some l |}].

Definition lines_640 : float * float :=
  (S754_finite false 6509108836433920 (-45),
   S754_finite false 8004444650209280 (-44)).

(** Columns of [y] for landmarks 0 to 20: a fist, the index finger alone,
    the middle finger alone, index and middle, and three fingers. *)
Definition ys_fist : list Z :=
  [400; 380; 350; 330; 320; 300; 260; 280; 290;
   300; 260; 280; 295; 305; 265; 285; 295; 310; 275; 290; 300].

Definition ys_index : list Z :=
  [400; 380; 350; 330; 320; 300; 260; 220; 180;
   300; 260; 280; 295; 305; 265; 285; 295; 310; 275; 290; 300].

(** The index finger alone, its tip below the base knuckle in the image. *)
Definition ys_hook : list Z :=
  [400; 380; 350; 330; 320; 170; 260; 220; 180;
   300; 260; 280; 295; 305; 265; 285; 295; 310; 275; 290; 300].

Definition ys_middle : list Z :=
  [400; 380; 350; 330; 320; 300; 260; 280; 290;
   300; 255; 215; 175; 305; 265; 285; 295; 310; 275; 290; 300].

Definition ys_two : list Z :=
  [400; 380; 350; 330; 320; 300; 260; 220; 180;
   300; 255; 215; 175; 305; 265; 285; 295; 310; 275; 290; 300].

(** Index and ring finger, the middle finger folded. *)
Definition ys_index_ring : list Z :=
  [400; 380; 350; 330; 320; 300; 260; 220; 180;
   300; 260; 280; 295; 305; 265; 225; 190; 310; 275; 290; 300].

Definition ys_three : list Z :=
  [400; 380; 350; 330; 320; 300; 260; 220; 180;
   300; 255; 215; 175; 305; 265; 225; 190; 310; 275; 290; 300].

(** * The rest of the frame loop *)

(** ** [int(x)] on a float

    Truncation toward zero; NaN and the infinities raise. *)
Definition int_of_float (f : float) : result Z :=
  match f with
  | S754_nan => Raise (ValueError "cannot convert float NaN to integer")
  | S754_infinity _ => Raise OverflowError
  | S754_zero _ => Ok 0
  | S754_finite s m e =>
      Ok (cond_Zopp s (if 0 <=? e then Zpos m * 2 ^ e
                       else Zpos m / 2 ^ (- e)))
  end.

(** ** [HandDetection.finger_position] *)

(** One landmark of a hand as the detector gives it; only [x] and [y] are
    read. *)
Record NormalizedLandmark : Type := {
  landmark_x : float;
  landmark_y : float
}.

(** The [for] loop of lines 177 to 181: [index] is the counter of
    [enumerate], [shape] is [image.shape], height first. *)
Fixpoint finger_position_loop (landmark : list NormalizedLandmark)
                              (index : Z) (shape : Z * Z)
                              (position_list : list position)
  : result (list position) :=
  match landmark with
  | [] => Ok position_list
  | landmarks :: rest =>
      let height := fst shape in
      let width := snd shape in
      (px <- mul_int (landmark_x landmarks) width ;;
       coordinate_x <- int_of_float px ;;
       py <- mul_int (landmark_y landmarks) height ;;
       coordinate_y <- int_of_float py ;;
       finger_position_loop rest (index + 1) shape
         (position_list ++ [{| index := index;
                               coordinate_x := coordinate_x;
                               coordinate_y := coordinate_y |}]))%result
  end.

(** [multi_hand_landmarks] is [None] or a list with one list of landmarks
    per hand. *)
Definition finger_position
    (multi_hand_landmarks : option (list (list NormalizedLandmark)))
    (shape : Z * Z) : result (list position) :=
  let position_list := [] in
  match multi_hand_landmarks with
  | None => Ok position_list
  | Some hands =>
      (my_hand <- getitem hands 0 ;;
       finger_position_loop my_hand 0 shape position_list)%result
  end.

(** [int(v * n)], the expression of lines 179 and 180 for one coordinate
    [v] and one side [n] of the image. *)
Definition pixel (v : float) (n : Z) : result Z :=
  (p <- mul_int v n ;; int_of_float p)%result.

(** ** The loop of [main]

    What the camera, the keyboard and the detector answer at one turn of
    the loop: [success] of [stream.read()], whether "q" is pressed, the shape
    of the image and the two fields of the detection result that are read.
    The list of captures ends where [stream.isOpened()] is false. *)
Record capture : Type := {
  success : bool;
  q_pressed : bool;
  shape : Z * Z;
  multi_handedness : option (list (list Classification));
  multi_hand_landmarks : option (list (list NormalizedLandmark))
}.

(** The two [break]s of lines 281 to 285. *)
Definition breaks (c : capture) : bool := negb (success c) || q_pressed c.

Section Main.

Context {W : Type}.
Variable o_media_player : Command W.

(** Lines 287 to 309. *)
Definition turn (lines_pos_x : float * float) (c : capture) : M W unit :=
  (label <- lift (hand_type (multi_handedness c)) ;;
   o_position_list <-
     lift (finger_position (multi_hand_landmarks c) (shape c)) ;;
   frame o_media_player o_position_list lines_pos_x label)%M.

(** Lines 278 to 309. *)
Fixpoint main_loop (lines_pos_x : float * float) (stream : list capture)
  : M W unit :=
  match stream with
  | [] => ret tt
  | c :: rest =>
      if negb (success c) then ret tt
      else if q_pressed c then ret tt
      else (turn lines_pos_x c ;;; main_loop lines_pos_x rest)%M
  end.

(** [main], without the thread that shows the image. *)
Definition main (user32 : Z -> Z) (stream : list capture) : M W unit :=
  (lines_pos_x <- lift (line_pos user32) ;;
   main_loop lines_pos_x stream)%M.

End Main.

(** ** Reading the events of the YouTube player *)

(** The key each method of [Youtube] presses. *)
Definition key_of (op : operation) : string :=
  match op with
  | PlayPause => "Space"
  | VolumeDown => "Down"
  | VolumeUp => "Up"
  | SeekForward => "Right"
  | SeekBackward => "Left"
  end.

(** The events [ops] leave on [Youtube]. *)
Definition events_of (ops : list operation) : list event :=
  flat_map (fun op => [press (key_of op); sleep seconds_0_7]) ops.

(** The landmark [i] of a list, or a landmark at the origin. *)
Definition landmark_at (o_position_list : list position) (i : nat)
  : position :=
  nth i o_position_list {| index := 0; coordinate_x := 0; coordinate_y := 0 |}.

(** ** Floats between 0 and 1

    [in_unit f] holds for the zeros and for the finite doubles [m * 2^e]
    with [0 < m * 2^e <= 1]; [scaled_le m e w] is [m * 2^e <= w] on
    integers. *)

Definition in_unit (f : float) : bool :=
  match f with
  | S754_zero _ => true
  | S754_finite false m e => (e <=? 0) && (Zpos m <=? 2 ^ (- e))
  | _ => false
  end.

Definition scaled_le (m e w : Z) : Prop :=
  m * 2 ^ Z.max e 0 <= w * 2 ^ Z.max (- e) 0.

(** ** Moving a hand

    The hand moved down by [d] pixels, and the hand seen in a mirror put at
    the middle of the 640 columns, with the label and the method that go
    with the mirror image. *)

Definition shift_down (d : Z) (p : position) : position :=
  {| index := index p;
     coordinate_x := coordinate_x p;
     coordinate_y := coordinate_y p + d |}.

Definition mirror (p : position) : position :=
  {| index := index p;
     coordinate_x := 640 - coordinate_x p;
     coordinate_y := coordinate_y p |}.

Definition mirror_label (label : option string) : option string :=
  match label with
  | Some l =>
      if String.eqb l "Left" then Some "Right"
      else if String.eqb l "Right" then Some "Left"
      else Some l
  | None => None
  end.

Definition mirror_operation (op : operation) : operation :=
  match op with
  | PlayPause => PlayPause
  | VolumeDown => VolumeUp
  | VolumeUp => VolumeDown
  | SeekForward => SeekBackward
  | SeekBackward => SeekForward
  end.

(** ** More sample data *)

Definition half : float := S754_finite false 4503599627370496 (-53).

Definition hand_landmarks (n : nat) : list NormalizedLandmark :=
  repeat {| landmark_x := half; landmark_y := half |} n.

(** Three landmarks at (0.25, 0.5), (0.5, 0.75) and (1.0, 0.0). *)
Definition quarter : float := S754_finite false 4503599627370496 (-54).
Definition three_quarters : float := S754_finite false 6755399441055744 (-53).
Definition one : float := S754_finite false 4503599627370496 (-52).

Definition three_landmarks : list NormalizedLandmark :=
  [{| landmark_x := quarter; landmark_y := half |};
   {| landmark_x := half; landmark_y := three_quarters |};
   {| landmark_x := one; landmark_y := S754_zero false |}].

Definition quiet_capture : capture := {|
  success := true;
  q_pressed := false;
  shape := (480, 640);
  multi_handedness := None;
  multi_hand_landmarks := None
|}.

Definition q_capture : capture := {|
  success := true;
  q_pressed := true;
  shape := (480, 640);
  multi_handedness := None;
  multi_hand_landmarks := None
|}.

(** A left hand of which only three landmarks are given. *)
Definition short_hand_capture : capture := {|
  success := true;
  q_pressed := false;
  shape := (480, 640);
  multi_handedness := Some [one_hand "Left"];
  multi_hand_landmarks := Some [hand_landmarks 3]
|}.

(** Two hands: a left one first, a right one last. *)
Definition two_hands_capture : capture := {|
  success := true;
  q_pressed := false;
  shape := (480, 640);
  multi_handedness := Some [one_hand "Left"; one_hand "Right"];
  multi_hand_landmarks := Some [hand_landmarks 21; hand_landmarks 21]
|}.

(** * Properties *)

(** ** Lists and the monad *)

Lemma getitem_Ok_range {A : Type} (l : list A) (i : Z) (a : A) :
  0 <= i -> getitem l i = Ok a -> i < Z.of_nat (List.length l).
Proof.
  intros Hi. unfold getitem.
  destruct (Z.ltb_spec i 0) as [Hneg | _]; [lia |].
  destruct (Z.leb_spec 0 i) as [_ | Hneg]; [| lia].
  destruct (Z.ltb_spec i (Z.of_nat (List.length l))) as [Hlt | Hge]; simpl.
  - intros _. exact Hlt.
  - discriminate.
Qed.

Lemma getitem_in_range {A : Type} (l : list A) (i : Z) :
  0 <= i < Z.of_nat (List.length l) -> exists a, getitem l i = Ok a.
Proof.
  intros [Hi Hlt]. unfold getitem.
  destruct (Z.ltb_spec i 0) as [Hneg | _]; [lia |].
  destruct (Z.leb_spec 0 i) as [_ | Hneg]; [| lia].
  destruct (Z.ltb_spec i (Z.of_nat (List.length l))) as [_ | Hge]; [| lia].
  simpl. destruct (nth_error l (Z.to_nat i)) as [a |] eqn:E.
  - exists a. reflexivity.
  - apply nth_error_None in E. lia.
Qed.

Lemma getitem_below {A : Type} (l : list A) (i j : Z) (a : A) :
  getitem l i = Ok a -> 0 <= j <= i -> exists b, getitem l j = Ok b.
Proof.
  intros H Hj. apply getitem_in_range.
  assert (i < Z.of_nat (List.length l))
    by (apply (getitem_Ok_range l i a); [lia | exact H]).
  lia.
Qed.

Lemma getitem_nonempty {A : Type} (l : list A) (i : Z) (a : A) :
  getitem l i = Ok a -> (List.length l =? 0)%nat = false.
Proof.
  destruct l as [| x l']; [| reflexivity].
  unfold getitem. simpl.
  destruct (i <? 0); simpl.
  - destruct (Z.leb_spec 0 (i + 0)); destruct (Z.ltb_spec (i + 0) 0); simpl;
      try discriminate; lia.
  - destruct (Z.leb_spec 0 i); destruct (Z.ltb_spec i 0); simpl;
      try discriminate; lia.
Qed.

(** ** The finger count *)

Lemma fingers_step_inv (o_position_list : list position)
      (fingers fingers' : list Z) (i t : Z) :
  getitem finger_tips i = Ok t ->
  fingers_step o_position_list fingers i = Ok fingers' ->
  exists tip joint,
    getitem o_position_list t = Ok tip /\
    getitem o_position_list (t - 2) = Ok joint /\
    count_occ Z.eq_dec fingers' 1 =
      (count_occ Z.eq_dec fingers 1%Z + b2n (above tip joint))%nat.
Proof.
  intros Ht. unfold fingers_step, lt_ints, gt_ints, tip_y, joint_y, item2.
  rewrite Ht. cbn [rbind].
  destruct (getitem o_position_list t) as [tip | e]; [| discriminate].
  destruct (getitem o_position_list (t - 2)) as [joint | e]; [| discriminate].
  cbn [rbind]. intros H. injection H as <-.
  exists tip, joint. repeat split. unfold above.
  destruct (Z.ltb_spec (coordinate_y tip) (coordinate_y joint));
    destruct (Z.gtb_spec (coordinate_y tip) (coordinate_y joint));
    rewrite ?count_occ_app; simpl; lia.
Qed.

Lemma total_fingers_inv (o_position_list : list position) (n : nat) :
  total_fingers o_position_list = Ok n ->
  exists p6 p8 p10 p12 p14 p16 p18 p20,
    getitem o_position_list 6 = Ok p6 /\
    getitem o_position_list 8 = Ok p8 /\
    getitem o_position_list 10 = Ok p10 /\
    getitem o_position_list 12 = Ok p12 /\
    getitem o_position_list 14 = Ok p14 /\
    getitem o_position_list 16 = Ok p16 /\
    getitem o_position_list 18 = Ok p18 /\
    getitem o_position_list 20 = Ok p20 /\
    n = (b2n (above p8 p6) + b2n (above p12 p10)
         + b2n (above p16 p14) + b2n (above p20 p18))%nat.
Proof.
  unfold total_fingers. cbn [fingers_loop].
  destruct (fingers_step o_position_list [] 1) as [f1 | e] eqn:E1; [| discriminate].
  cbn [rbind].
  destruct (fingers_step o_position_list f1 2) as [f2 | e] eqn:E2; [| discriminate].
  cbn [rbind].
  destruct (fingers_step o_position_list f2 3) as [f3 | e] eqn:E3; [| discriminate].
  cbn [rbind].
  destruct (fingers_step o_position_list f3 4) as [f4 | e] eqn:E4; [| discriminate].
  cbn [rbind]. intros H. injection H as <-.
  apply (fingers_step_inv _ _ _ 1 8 eq_refl) in E1 as (p8 & p6 & H8 & H6 & C1).
  apply (fingers_step_inv _ _ _ 2 12 eq_refl) in E2 as (p12 & p10 & H12 & H10 & C2).
  apply (fingers_step_inv _ _ _ 3 16 eq_refl) in E3 as (p16 & p14 & H16 & H14 & C3).
  apply (fingers_step_inv _ _ _ 4 20 eq_refl) in E4 as (p20 & p18 & H20 & H18 & C4).
  exists p6, p8, p10, p12, p14, p16, p18, p20.
  repeat (split; [assumption |]).
  rewrite C4, C3, C2, C1. reflexivity.
Qed.

Lemma total_fingers_le_4 (o_position_list : list position) (n : nat) :
  total_fingers o_position_list = Ok n -> (n <= 4)%nat.
Proof.
  intros H. apply total_fingers_inv in H
    as (p6 & p8 & p10 & p12 & p14 & p16 & p18 & p20
        & _ & _ & _ & _ & _ & _ & _ & _ & ->).
  unfold b2n.
  destruct (above p8 p6), (above p12 p10), (above p16 p14), (above p20 p18);
    simpl; lia.
Qed.

(** ** Running the three gesture methods *)

Lemma label_not_both (lbl : option string) :
  label_eq lbl "Left" && label_eq lbl "Right" = false.
Proof.
  destruct lbl as [l |]; [| reflexivity]. simpl.
  destruct (String.eqb_spec l "Left") as [-> | _]; reflexivity.
Qed.

Section Runs.

Context {W : Type}.
Variable player : Command W.
Variable pos : list position.
Variable lines : float * float.
Variable lbl : option string.

Lemma total_fingers_0_run (p9 : position) (w : W) :
  getitem pos 9 = Ok p9 ->
  total_fingers_0 player (Build_HandGesture pos lines lbl) w =
    (Ok tt,
     perform_all player
       (if centre_zone lines (coordinate_x p9) then [PlayPause] else []) w).
Proof.
  intros H9.
  unfold total_fingers_0, bind, lift, pand, item1, centre_zone; simpl.
  rewrite H9; simpl.
  destruct (int_gt (coordinate_x p9) (fst lines)); simpl;
    [destruct (int_lt (coordinate_x p9) (snd lines)) |]; reflexivity.
Qed.

Lemma total_fingers_1_run (p6 p8 : position) (w : W) :
  getitem pos 6 = Ok p6 ->
  getitem pos 8 = Ok p8 ->
  total_fingers_1 player (Build_HandGesture pos lines lbl) w =
    (Ok tt,
     perform_all player
       (if above p8 p6 then
          (if left_zone lines (coordinate_x p8) && label_eq lbl "Left"
           then [SeekBackward] else [])
          ++ (if right_zone lines (coordinate_x p8) && label_eq lbl "Right"
              then [SeekForward] else [])
        else []) w).
Proof.
  intros H6 H8.
  unfold total_fingers_1, index_recheck, bind, lift, pand, lt_ints, item1,
    item2,
    left_zone, right_zone, above; simpl.
  rewrite H6, H8; simpl.
  destruct (coordinate_y p8 <? coordinate_y p6); [| reflexivity].
  destruct (int_lt (coordinate_x p8) (fst lines)),
           (int_gt (coordinate_x p8) (snd lines)),
           (label_eq lbl "Left"), (label_eq lbl "Right"); reflexivity.
Qed.

Lemma total_fingers_2_run (p6 p8 p9 p10 p12 : position) (w : W) :
  getitem pos 6 = Ok p6 ->
  getitem pos 8 = Ok p8 ->
  getitem pos 9 = Ok p9 ->
  getitem pos 10 = Ok p10 ->
  getitem pos 12 = Ok p12 ->
  total_fingers_2 player (Build_HandGesture pos lines lbl) w =
    (Ok tt,
     perform_all player
       (if above p12 p10 && above p8 p6 then
          (if left_zone lines (coordinate_x p9) && label_eq lbl "Left"
           then [VolumeDown] else [])
          ++ (if right_zone lines (coordinate_x p9) && label_eq lbl "Right"
              then [VolumeUp] else [])
        else []) w).
Proof.
  intros H6 H8 H9 H10 H12.
  unfold total_fingers_2, middle_recheck, index_recheck, bind, lift, pand,
    lt_ints, item1, item2,
    left_zone, right_zone, above; simpl.
  rewrite H6, H8, H9, H10, H12; simpl.
  destruct (coordinate_y p12 <? coordinate_y p10); [| reflexivity].
  destruct (coordinate_y p8 <? coordinate_y p6); [| reflexivity].
  destruct (int_lt (coordinate_x p9) (fst lines)),
           (int_gt (coordinate_x p9) (snd lines)),
           (label_eq lbl "Left"), (label_eq lbl "Right"); reflexivity.
Qed.

(** Once the count is known, the frame is the one method the count
    selects. *)
Lemma frame_run (n : nat) (w : W) :
  total_fingers pos = Ok n ->
  frame player pos lines lbl w =
    match n with
    | 0%nat => total_fingers_0 player (Build_HandGesture pos lines lbl) w
    | 1%nat => total_fingers_1 player (Build_HandGesture pos lines lbl) w
    | 2%nat => total_fingers_2 player (Build_HandGesture pos lines lbl) w
    | _ => (Ok tt, w)
    end.
Proof.
  intros Hn. unfold frame.
  destruct (total_fingers_inv pos n Hn) as (p6 & _ & _ & _ & _ & _ & _ & _ & H6 & _).
  rewrite (getitem_nonempty pos 6 p6 H6). cbn [negb].
  unfold bind at 1, lift at 1. rewrite Hn.
  destruct n as [| [| [| n']]]; cbn [Nat.eqb].
  - unfold bind at 1.
    destruct (total_fingers_0 player (Build_HandGesture pos lines lbl) w)
      as [[[] | e] w']; reflexivity.
  - unfold bind at 1, ret at 1. unfold bind at 1.
    destruct (total_fingers_1 player (Build_HandGesture pos lines lbl) w)
      as [[[] | e] w']; reflexivity.
  - reflexivity.
  - reflexivity.
Qed.

End Runs.

(** ** One frame, one decision *)

Lemma perform_all_Recorder (ops w : list operation) :
  perform_all Recorder ops w = w ++ ops.
Proof.
  revert w. induction ops as [| op ops IH]; intros w.
  - symmetry. apply app_nil_r.
  - unfold perform_all in *. cbn [fold_left]. rewrite IH.
    destruct op; simpl; rewrite <- app_assoc; reflexivity.
Qed.

Lemma two_gated_le_1 (a b l r : bool) (x y : operation) :
  l && r = false ->
  (List.length ((if a && l then [x] else []) ++ (if b && r then [y] else []))
   <= 1)%nat.
Proof. destruct a, b, l, r; simpl; intros H; try discriminate; lia. Qed.

Lemma frame_raise {W : Type} (player : Command W) (pos : list position)
      (lines : float * float) (lbl : option string) (e : exn) (w : W) :
  total_fingers pos = Raise e ->
  frame player pos lines lbl w =
    (if negb (List.length pos =? 0)%nat then Raise e else Ok tt, w).
Proof.
  intros H. unfold frame.
  destruct (negb (List.length pos =? 0)%nat); [| reflexivity].
  unfold bind at 1, lift at 1. rewrite H. reflexivity.
Qed.

(** C1. Whatever the landmark list, the two lines and the label are, one
    frame calls at most one of the five methods of the player: there is one
    list [ops] of at most one method name, fixed by the frame alone, such
    that on every player the frame does exactly [ops]; it is the log the
    recording player ends with. *)
Theorem frame_at_most_one_operation
    (pos : list position) (lines : float * float) (lbl : option string) :
  exists (r : result unit) (ops : list operation),
    (List.length ops <= 1)%nat /\
    decisions pos lines lbl = (r, ops) /\
    forall (W : Type) (player : Command W) (w : W),
      frame player pos lines lbl w = (r, perform_all player ops w).
Proof.
  assert (Hrec : forall r ops,
    (forall (W : Type) (player : Command W) (w : W),
        frame player pos lines lbl w = (r, perform_all player ops w)) ->
    decisions pos lines lbl = (r, ops)).
  { intros r ops H. unfold decisions. rewrite H, perform_all_Recorder.
    reflexivity. }
  destruct (total_fingers pos) as [n | e] eqn:Hn.
  - destruct (total_fingers_inv pos n Hn)
      as (p6 & p8 & p10 & p12 & p14 & p16 & p18 & p20
          & H6 & H8 & H10 & H12 & _ & _ & _ & H20 & _).
    destruct (getitem_below pos 20 9 p20 H20 ltac:(lia)) as [p9 H9].
    destruct n as [| [| [| n']]].
    + exists (Ok tt),
        (if centre_zone lines (coordinate_x p9) then [PlayPause] else []).
      split; [destruct (centre_zone _ _); simpl; lia |].
      split; [apply Hrec |]; intros W player w;
        rewrite (frame_run player pos lines lbl 0 w Hn);
        apply total_fingers_0_run; exact H9.
    + exists (Ok tt),
        (if above p8 p6 then
           (if left_zone lines (coordinate_x p8) && label_eq lbl "Left"
            then [SeekBackward] else [])
           ++ (if right_zone lines (coordinate_x p8) && label_eq lbl "Right"
               then [SeekForward] else [])
         else []).
      split.
      { destruct (above p8 p6); [| simpl; lia].
        apply two_gated_le_1, label_not_both. }
      split; [apply Hrec |]; intros W player w;
        rewrite (frame_run player pos lines lbl 1 w Hn);
        apply total_fingers_1_run; assumption.
    + exists (Ok tt),
        (if above p12 p10 && above p8 p6 then
           (if left_zone lines (coordinate_x p9) && label_eq lbl "Left"
            then [VolumeDown] else [])
           ++ (if right_zone lines (coordinate_x p9) && label_eq lbl "Right"
               then [VolumeUp] else [])
         else []).
      split.
      { destruct (above p12 p10 && above p8 p6); [| simpl; lia].
        apply two_gated_le_1, label_not_both. }
      split; [apply Hrec |]; intros W player w;
        rewrite (frame_run player pos lines lbl 2 w Hn);
        apply total_fingers_2_run; assumption.
    + exists (Ok tt), []. split; [simpl; lia |].
      split; [apply Hrec |]; intros W player w;
        rewrite (frame_run player pos lines lbl _ w Hn); reflexivity.
  - exists (if negb (List.length pos =? 0)%nat then Raise e else Ok tt), [].
    split; [simpl; lia |].
    split; [apply Hrec |]; intros W player w;
      apply frame_raise; exact Hn.
Qed.

(** ** The three gesture families *)

(** C2. With no finger counted, the frame calls [play_pause] exactly when
    the [x] of landmark 9 is above the first line and below the second, and
    calls nothing otherwise; the label plays no part. *)
Theorem count_0_play_pause
    (pos : list position) (lines : float * float) (lbl : option string)
    (H0 : total_fingers pos = Ok 0%nat) :
  exists p9 : position,
    getitem pos 9 = Ok p9 /\
    forall (W : Type) (player : Command W) (w : W),
      frame player pos lines lbl w =
        (Ok tt,
         perform_all player
           (if int_gt (coordinate_x p9) (fst lines)
               && int_lt (coordinate_x p9) (snd lines)
            then [PlayPause] else []) w).
Proof.
  destruct (total_fingers_inv pos _ H0)
    as (p6 & p8 & p10 & p12 & p14 & p16 & p18 & p20
        & _ & _ & _ & _ & _ & _ & _ & H20 & _).
  destruct (getitem_below pos 20 9 p20 H20 ltac:(lia)) as [p9 H9].
  exists p9. split; [exact H9 |]. intros W player w.
  rewrite (frame_run player pos lines lbl 0 w H0).
  apply total_fingers_0_run. exact H9.
Qed.

Lemma count_0_play_pause_witness :
  total_fingers (hand_of 320 ys_fist) = Ok 0%nat /\
  exists p9 : position,
    getitem (hand_of 320 ys_fist) 9 = Ok p9 /\
    forall (W : Type) (player : Command W) (w : W),
      frame player (hand_of 320 ys_fist) lines_640 None w =
        (Ok tt,
         perform_all player
           (if int_gt (coordinate_x p9) (fst lines_640)
               && int_lt (coordinate_x p9) (snd lines_640)
            then [PlayPause] else []) w).
Proof.
  split; [reflexivity |].
  apply (count_0_play_pause (hand_of 320 ys_fist) lines_640 None).
  reflexivity.
Defined.

(** C3. With one finger counted and the index recheck passed, the frame
    calls [backward] when the [x] of landmark 8 is below the first line and
    the label is ['Left'], [forward] when it is above the second line and
    the label is ['Right'], and nothing in every other case. *)
Theorem count_1_seek
    (pos : list position) (lines : float * float) (lbl : option string)
    (p8 : position)
    (H1 : total_fingers pos = Ok 1%nat)
    (H8 : getitem pos 8 = Ok p8)
    (Hrecheck : index_recheck
                  {| o_pos_lst := pos; lines_pos := lines; label := lbl |}
                = Ok true) :
  forall (W : Type) (player : Command W) (w : W),
    frame player pos lines lbl w =
      (Ok tt,
       perform_all player
         (if int_lt (coordinate_x p8) (fst lines) && label_eq lbl "Left"
          then [SeekBackward]
          else if int_gt (coordinate_x p8) (snd lines) && label_eq lbl "Right"
          then [SeekForward]
          else []) w).
Proof.
  intros W player w.
  destruct (total_fingers_inv pos _ H1)
    as (p6 & p8' & p10 & p12 & p14 & p16 & p18 & p20
        & H6 & H8' & _).
  rewrite H8 in H8'. injection H8' as <-.
  rewrite (frame_run player pos lines lbl 1 w H1).
  rewrite (total_fingers_1_run player pos lines lbl p6 p8 w H6 H8).
  unfold index_recheck, lt_ints, item2 in Hrecheck. simpl in Hrecheck.
  rewrite H6, H8 in Hrecheck. simpl in Hrecheck.
  injection Hrecheck as Hab. unfold above. rewrite Hab.
  unfold left_zone, right_zone.
  pose proof (label_not_both lbl) as Hlr.
  destruct (int_lt (coordinate_x p8) (fst lines)),
           (int_gt (coordinate_x p8) (snd lines)),
           (label_eq lbl "Left"), (label_eq lbl "Right");
    try discriminate Hlr; reflexivity.
Qed.

Lemma count_1_seek_witness :
  total_fingers (hand_of 100 ys_index) = Ok 1%nat /\
  getitem (hand_of 100 ys_index) 8
    = Ok {| index := 8; coordinate_x := 100; coordinate_y := 180 |} /\
  index_recheck {| o_pos_lst := hand_of 100 ys_index;
                   lines_pos := lines_640; label := Some "Left" |} = Ok true /\
  decisions (hand_of 100 ys_index) lines_640 (Some "Left")
    = (Ok tt, [SeekBackward]).
Proof.
  split; [reflexivity |]. split; [reflexivity |]. split; [reflexivity |].
  exact (count_1_seek (hand_of 100 ys_index) lines_640 (Some "Left")
           {| index := 8; coordinate_x := 100; coordinate_y := 180 |}
           eq_refl eq_refl eq_refl (list operation) Recorder []).
Defined.




(** C5. With two fingers counted, nothing is called unless the middle
    fingertip (landmark 12) is above landmark 10 and the index fingertip
    (landmark 8) is above landmark 6; then the frame calls
    [volume_decrease] when the [x] of landmark 9 is below the first line and
    the label is ['Left'], [volume_increase] when it is above the second
    line and the label is ['Right'], and nothing in every other case. *)
Theorem count_2_volume
    (pos : list position) (lines : float * float) (lbl : option string)
    (p6 p8 p9 p10 p12 : position)
    (H2 : total_fingers pos = Ok 2%nat)
    (H6 : getitem pos 6 = Ok p6)
    (H8 : getitem pos 8 = Ok p8)
    (H9 : getitem pos 9 = Ok p9)
    (H10 : getitem pos 10 = Ok p10)
    (H12 : getitem pos 12 = Ok p12) :
  middle_recheck {| o_pos_lst := pos; lines_pos := lines; label := lbl |}
    = Ok (coordinate_y p12 <? coordinate_y p10) /\
  index_recheck {| o_pos_lst := pos; lines_pos := lines; label := lbl |}
    = Ok (coordinate_y p8 <? coordinate_y p6) /\
  forall (W : Type) (player : Command W) (w : W),
    frame player pos lines lbl w =
      (Ok tt,
       perform_all player
         (if (coordinate_y p12 <? coordinate_y p10)
             && (coordinate_y p8 <? coordinate_y p6)
          then
            if int_lt (coordinate_x p9) (fst lines) && label_eq lbl "Left"
            then [VolumeDown]
            else if int_gt (coordinate_x p9) (snd lines)
                    && label_eq lbl "Right"
            then [VolumeUp]
            else []
          else []) w).
Proof.
  split; [| split].
  - unfold middle_recheck, lt_ints, item2. simpl. rewrite H10, H12. reflexivity.
  - unfold index_recheck, lt_ints, item2. simpl. rewrite H6, H8. reflexivity.
  - intros W player w.
    rewrite (frame_run player pos lines lbl 2 w H2).
    rewrite (total_fingers_2_run player pos lines lbl p6 p8 p9 p10 p12 w
               H6 H8 H9 H10 H12).
    unfold left_zone, right_zone, above.
    pose proof (label_not_both lbl) as Hlr.
    destruct ((coordinate_y p12 <? coordinate_y p10)
              && (coordinate_y p8 <? coordinate_y p6)); [| reflexivity].
    destruct (int_lt (coordinate_x p9) (fst lines)),
             (int_gt (coordinate_x p9) (snd lines)),
             (label_eq lbl "Left"), (label_eq lbl "Right");
      try discriminate Hlr; reflexivity.
Qed.

Lemma count_2_volume_witness :
  (total_fingers (hand_of 500 ys_two) = Ok 2%nat /\
   getitem (hand_of 500 ys_two) 6
     = Ok {| index := 6; coordinate_x := 500; coordinate_y := 260 |} /\
   getitem (hand_of 500 ys_two) 8
     = Ok {| index := 8; coordinate_x := 500; coordinate_y := 180 |} /\
   getitem (hand_of 500 ys_two) 9
     = Ok {| index := 9; coordinate_x := 500; coordinate_y := 300 |} /\
   getitem (hand_of 500 ys_two) 10
     = Ok {| index := 10; coordinate_x := 500; coordinate_y := 255 |} /\
   getitem (hand_of 500 ys_two) 12
     = Ok {| index := 12; coordinate_x := 500; coordinate_y := 175 |}) /\
  middle_recheck {| o_pos_lst := hand_of 500 ys_two;
                    lines_pos := lines_640; label := Some "Right" |}
    = Ok true /\
  index_recheck {| o_pos_lst := hand_of 500 ys_two;
                   lines_pos := lines_640; label := Some "Right" |}
    = Ok true /\
  decisions (hand_of 500 ys_two) lines_640 (Some "Right")
    = (Ok tt, [VolumeUp]) /\
  decisions (hand_of 100 ys_two) lines_640 (Some "Left")
    = (Ok tt, [VolumeDown]) /\
  decisions (hand_of 100 ys_two) lines_640 (Some "Right") = (Ok tt, []) /\
  decisions (hand_of 500 ys_index_ring) lines_640 (Some "Right")
    = (Ok tt, []).
Proof.
  split; [repeat (split; [reflexivity |]); reflexivity |].
  destruct (count_2_volume (hand_of 500 ys_two) lines_640 (Some "Right")
              {| index := 6; coordinate_x := 500; coordinate_y := 260 |}
              {| index := 8; coordinate_x := 500; coordinate_y := 180 |}
              {| index := 9; coordinate_x := 500; coordinate_y := 300 |}
              {| index := 10; coordinate_x := 500; coordinate_y := 255 |}
              {| index := 12; coordinate_x := 500; coordinate_y := 175 |}
              eq_refl eq_refl eq_refl eq_refl eq_refl eq_refl)
    as (Hm & Hi & Hup).
  destruct (count_2_volume (hand_of 100 ys_two) lines_640 (Some "Left")
              {| index := 6; coordinate_x := 100; coordinate_y := 260 |}
              {| index := 8; coordinate_x := 100; coordinate_y := 180 |}
              {| index := 9; coordinate_x := 100; coordinate_y := 300 |}
              {| index := 10; coordinate_x := 100; coordinate_y := 255 |}
              {| index := 12; coordinate_x := 100; coordinate_y := 175 |}
              eq_refl eq_refl eq_refl eq_refl eq_refl eq_refl)
    as (_ & _ & Hdown).
  destruct (count_2_volume (hand_of 100 ys_two) lines_640 (Some "Right")
              {| index := 6; coordinate_x := 100; coordinate_y := 260 |}
              {| index := 8; coordinate_x := 100; coordinate_y := 180 |}
              {| index := 9; coordinate_x := 100; coordinate_y := 300 |}
              {| index := 10; coordinate_x := 100; coordinate_y := 255 |}
              {| index := 12; coordinate_x := 100; coordinate_y := 175 |}
              eq_refl eq_refl eq_refl eq_refl eq_refl eq_refl)
    as (_ & _ & Hmismatch).
  destruct (count_2_volume (hand_of 500 ys_index_ring) lines_640 (Some "Right")
              {| index := 6; coordinate_x := 500; coordinate_y := 260 |}
              {| index := 8; coordinate_x := 500; coordinate_y := 180 |}
              {| index := 9; coordinate_x := 500; coordinate_y := 300 |}
              {| index := 10; coordinate_x := 500; coordinate_y := 260 |}
              {| index := 12; coordinate_x := 500; coordinate_y := 295 |}
              eq_refl eq_refl eq_refl eq_refl eq_refl eq_refl)
    as (_ & _ & Hgate).
  split; [exact Hm |]. split; [exact Hi |].
  split; [exact (Hup (list operation) Recorder []) |].
  split; [exact (Hdown (list operation) Recorder []) |].
  split; [exact (Hmismatch (list operation) Recorder []) |].
  exact (Hgate (list operation) Recorder []).
Defined.

(** C6. A frame with no landmark, or with three or four fingers counted,
    calls no method and raises nothing. *)
Theorem no_hand_or_count_3_4
    (pos : list position) (lines : float * float) (lbl : option string)
    (H : pos = [] \/ total_fingers pos = Ok 3%nat
         \/ total_fingers pos = Ok 4%nat) :
  forall (W : Type) (player : Command W) (w : W),
    frame player pos lines lbl w = (Ok tt, w).
Proof.
  intros W player w.
  destruct H as [-> | [H | H]].
  - reflexivity.
  - rewrite (frame_run player pos lines lbl _ w H). reflexivity.
  - rewrite (frame_run player pos lines lbl _ w H). reflexivity.
Qed.

Lemma no_hand_or_count_3_4_witness :
  (hand_of 100 ys_three = [] \/
   total_fingers (hand_of 100 ys_three) = Ok 3%nat \/
   total_fingers (hand_of 100 ys_three) = Ok 4%nat) /\
  decisions (hand_of 100 ys_three) lines_640 (Some "Left") = (Ok tt, []).
Proof.
  split; [right; left; reflexivity |].
  apply (no_hand_or_count_3_4 (hand_of 100 ys_three) lines_640 (Some "Left")).
  right; left; reflexivity.
Defined.

(** ** The label *)

Lemma hand_type_loop_some (hands : list (list Classification)) (l : string)
      (r : option string) :
  hand_type_loop hands (Some l) = Ok r -> exists l', r = Some l'.
Proof.
  revert l. induction hands as [| h rest IH]; intros l; simpl.
  - intros H. injection H as <-. exists l. reflexivity.
  - destruct (classification_label h) as [l1 | e]; simpl; [| discriminate].
    apply IH.
Qed.

Lemma hand_type_loop_snoc (hands : list (list Classification))
      (h : list Classification) (acc : option string) :
  hand_type_loop (hands ++ [h]) acc =
    (_ <- hand_type_loop hands acc ;;
     l <- classification_label h ;; Ok (Some l))%result.
Proof.
  revert acc. induction hands as [| h0 rest IH]; intros acc; simpl.
  - reflexivity.
  - destruct (classification_label h0) as [l0 | e]; simpl; [apply IH | reflexivity].
Qed.

(** C9, as the code has it. The label is [None] only when no hand is
    listed; with several hands it is the label of the last one. A frame
    whose label is [None] calls nothing at count 1 and at count 2 (nor at 3
    or 4), and at count 0 does what it does with any other label. *)
Theorem label_none_only_without_hand
    (multi_handedness : option (list (list Classification)))
    (pos : list position) (lines : float * float) (lbl : option string)
    (n : nat)
    (Hn : total_fingers pos = Ok n) :
  (hand_type multi_handedness = Ok None
   <-> multi_handedness = None \/ multi_handedness = Some []) /\
  (forall (hands : list (list Classification)) (h : list Classification)
          (l : string),
      hand_type (Some (hands ++ [h])) = Ok (Some l)
      <-> (exists r, hand_type (Some hands) = Ok r)
          /\ classification_label h = Ok l) /\
  forall (W : Type) (player : Command W) (w : W),
    frame player pos lines None w =
      match n with
      | 0%nat => frame player pos lines lbl w
      | _ => (Ok tt, w)
      end.
Proof.
  split; [| split].
  - split.
    + destruct multi_handedness as [[| h hs] |]; simpl; auto.
      destruct (classification_label h) as [l | e]; simpl; [| discriminate].
      intros H. apply hand_type_loop_some in H as [l' H]. discriminate.
    + intros [-> | ->]; reflexivity.
  - intros hands h l.
    assert (E : hand_type (Some (hands ++ [h]))
                = hand_type_loop (hands ++ [h]) None).
    { unfold hand_type. destruct hands; reflexivity. }
    assert (E' : hand_type (Some hands) = hand_type_loop hands None).
    { unfold hand_type. destruct hands; reflexivity. }
    rewrite E, E', hand_type_loop_snoc.
    destruct (hand_type_loop hands None) as [r |]; simpl.
    + destruct (classification_label h) as [l' |]; simpl; split.
      * intros H. injection H as ->. split; [exists r |]; reflexivity.
      * intros [_ H]. injection H as ->. reflexivity.
      * discriminate.
      * intros [_ H]. discriminate.
    + split; [discriminate | intros [[r H] _]; discriminate].
  - intros W player w.
    destruct (total_fingers_inv pos _ Hn)
      as (p6 & p8 & p10 & p12 & p14 & p16 & p18 & p20
          & H6 & H8 & H10 & H12 & _ & _ & _ & H20 & _).
    destruct (getitem_below pos 20 9 p20 H20 ltac:(lia)) as [p9 H9].
    rewrite (frame_run player pos lines None n w Hn).
    destruct n as [| [| [| n']]].
    + rewrite (frame_run player pos lines lbl 0 w Hn).
      rewrite (total_fingers_0_run player pos lines None p9 w H9).
      rewrite (total_fingers_0_run player pos lines lbl p9 w H9).
      reflexivity.
    + rewrite (total_fingers_1_run player pos lines None p6 p8 w H6 H8).
      simpl. rewrite !andb_false_r. destruct (above p8 p6); reflexivity.
    + rewrite (total_fingers_2_run player pos lines None p6 p8 p9 p10 p12 w
                 H6 H8 H9 H10 H12).
      simpl. rewrite !andb_false_r.
      destruct (above p12 p10 && above p8 p6); reflexivity.
    + reflexivity.
Qed.

Lemma label_none_only_without_hand_witness :
  total_fingers (hand_of 100 ys_index) = Ok 1%nat /\
  decisions (hand_of 100 ys_index) lines_640 None = (Ok tt, []).
Proof.
  split; [reflexivity |].
  destruct (label_none_only_without_hand None (hand_of 100 ys_index) lines_640
              (Some "Left") 1 eq_refl) as (_ & _ & H).
  exact (H (list operation) Recorder []).
Defined.

(** C9, as the claim words it, fails: with a left and a right hand listed
    the label is ['Right'], not [None], and the frame then seeks forward. *)
Lemma two_hands_label_is_last :
  hand_type (Some [one_hand "Left"; one_hand "Right"]) = Ok (Some "Right") /\
  hand_type (Some [one_hand "Left"; one_hand "Right"]) <> Ok None /\
  decisions (hand_of 500 ys_index) lines_640 (Some "Right")
    = (Ok tt, [SeekForward]).
Proof. repeat split. discriminate. Qed.

(** ** Choosing the player *)

Lemma same_letter_spec (a b : ascii) :
  same_letter a b = true <->
  let x := nat_of_ascii a in
  let y := nat_of_ascii b in
  (x = y \/ (65 <= x <= 90 /\ y = x + 32) \/ (65 <= y <= 90 /\ x = y + 32))%nat.
Proof.
  unfold same_letter. cbv zeta.
  rewrite !orb_true_iff, !andb_true_iff, !Nat.eqb_eq, !Nat.leb_le. tauto.
Qed.

Lemma lower_ascii_code (a : ascii) :
  nat_of_ascii (lower_ascii a) =
    (if (65 <=? nat_of_ascii a)%nat && (nat_of_ascii a <=? 90)%nat
     then nat_of_ascii a + 32 else nat_of_ascii a)%nat.
Proof.
  unfold lower_ascii.
  destruct (Nat.leb_spec 65 (nat_of_ascii a)) as [L | L];
    destruct (Nat.leb_spec (nat_of_ascii a) 90) as [U | U]; cbn [andb];
    try reflexivity.
  apply nat_ascii_embedding. lia.
Qed.

Lemma nat_of_ascii_inj (a b : ascii) : nat_of_ascii a = nat_of_ascii b -> a = b.
Proof.
  intros H. rewrite <- (ascii_nat_embedding a), <- (ascii_nat_embedding b), H.
  reflexivity.
Qed.

Lemma lower_ascii_eq_iff (a b : ascii) :
  lower_ascii a = lower_ascii b <-> same_letter a b = true.
Proof.
  rewrite same_letter_spec. cbv zeta. split.
  - intros H. apply (f_equal nat_of_ascii) in H.
    rewrite !lower_ascii_code in H.
    destruct (Nat.leb_spec 65 (nat_of_ascii a)), (Nat.leb_spec (nat_of_ascii a) 90),
             (Nat.leb_spec 65 (nat_of_ascii b)), (Nat.leb_spec (nat_of_ascii b) 90);
      cbn [andb] in H; lia.
  - intros H. apply nat_of_ascii_inj. rewrite !lower_ascii_code.
    destruct (Nat.leb_spec 65 (nat_of_ascii a)), (Nat.leb_spec (nat_of_ascii a) 90),
             (Nat.leb_spec 65 (nat_of_ascii b)), (Nat.leb_spec (nat_of_ascii b) 90);
      cbn [andb]; lia.
Qed.

Lemma lower_eq_iff (s t : string) :
  lower s = lower t <-> case_variant s t = true.
Proof.
  revert t. induction s as [| a s IH]; intros [| b t]; simpl;
    try (split; [discriminate | discriminate]).
  - split; reflexivity.
  - rewrite andb_true_iff, <- IH, <- lower_ascii_eq_iff.
    split.
    + intros H. injection H as H1 H2. split; assumption.
    + intros [H1 H2]. rewrite H1, H2. reflexivity.
Qed.

(** C8. The name is taken in any letter case: the selection returns the
    YouTube player exactly for the case variants of "YouTube" and raises for
    every other name, "vlc" among them; the YouTube player answers each of
    the five methods with one key press of its own. *)
Theorem player_selection_case_insensitive (o_media_player_name : string) :
  select_media_player o_media_player_name =
    (if case_variant o_media_player_name "YouTube" then Ok Youtube
     else Raise (ValueError
                   "The application does not work on this media player!")) /\
  select_media_player "vlc" =
    Raise (ValueError "The application does not work on this media player!") /\
  forall w : list event,
    play_pause Youtube w = w ++ [press "Space"; sleep seconds_0_7] /\
    volume_increase Youtube w = w ++ [press "Up"; sleep seconds_0_7] /\
    volume_decrease Youtube w = w ++ [press "Down"; sleep seconds_0_7] /\
    forward Youtube w = w ++ [press "Right"; sleep seconds_0_7] /\
    backward Youtube w = w ++ [press "Left"; sleep seconds_0_7].
Proof.
  split; [| split; [reflexivity | intros w; repeat split]].
  unfold select_media_player, create_media_player.
  destruct (case_variant o_media_player_name "YouTube") eqn:E.
  - apply lower_eq_iff in E. rewrite E. reflexivity.
  - destruct (String.eqb_spec (lower o_media_player_name) "youtube") as [H | H];
      [| reflexivity].
    change "youtube" with (lower "YouTube") in H.
    apply lower_eq_iff in H. congruence.
Qed.

(** ** Doubles: operations whose exact result is a double

    The three operations of [line_pos] return the exact product or quotient
    whenever it is [c * 2^E] with [c] below [2^53] and [E] far from the
    ends of the exponent range. *)

Lemma digits2_pos_bounds (p : positive) :
  2 ^ (Zpos (digits2_pos p) - 1) <= Zpos p < 2 ^ Zpos (digits2_pos p).
Proof.
  induction p as [p IH | p IH |]; cbn [digits2_pos].
  - rewrite Pos2Z.inj_succ. change (Zpos p~1) with (2 * Zpos p + 1).
    replace (Z.succ (Zpos (digits2_pos p)) - 1)
      with (Z.succ (Zpos (digits2_pos p) - 1)) by lia.
    rewrite !Z.pow_succ_r by lia. lia.
  - rewrite Pos2Z.inj_succ. change (Zpos p~0) with (2 * Zpos p).
    replace (Z.succ (Zpos (digits2_pos p)) - 1)
      with (Z.succ (Zpos (digits2_pos p) - 1)) by lia.
    rewrite !Z.pow_succ_r by lia. lia.
  - simpl. lia.
Qed.

Lemma Zdigits2_bounds (m : Z) :
  0 < m -> 0 < Zdigits2 m /\ 2 ^ (Zdigits2 m - 1) <= m < 2 ^ Zdigits2 m.
Proof.
  destruct m as [| p | p]; try lia. intros _. simpl.
  split; [lia | apply digits2_pos_bounds].
Qed.

Lemma Zdigits2_unique (m d : Z) :
  2 ^ (d - 1) <= m < 2 ^ d -> 0 < m -> Zdigits2 m = d.
Proof.
  intros [Hlo Hhi] Hm.
  destruct (Zdigits2_bounds m Hm) as (Hd & Hlo' & Hhi').
  assert (0 < d).
  { destruct (Z.lt_trichotomy d 0) as [H | [H | H]]; try lia.
    - rewrite (Z.pow_neg_r 2 d H) in Hhi. lia.
    - subst d. simpl in Hhi. lia. }
  assert (Zdigits2 m - 1 < d).
  { apply (Z.pow_lt_mono_r_iff 2); lia. }
  assert (d - 1 < Zdigits2 m).
  { apply (Z.pow_lt_mono_r_iff 2); lia. }
  lia.
Qed.

Lemma Zdigits2_mul_pow2 (c j : Z) :
  0 < c -> 0 <= j -> Zdigits2 (c * 2 ^ j) = Zdigits2 c + j.
Proof.
  intros Hc Hj.
  destruct (Zdigits2_bounds c Hc) as (Hd & Hlo & Hhi).
  assert (0 < 2 ^ j) by (apply Z.pow_pos_nonneg; lia).
  apply Zdigits2_unique; [| nia].
  replace (Zdigits2 c + j - 1) with (Zdigits2 c - 1 + j) by lia.
  rewrite !Z.pow_add_r by lia. nia.
Qed.

Lemma shr_1_double (z : Z) :
  shr_1 {| shr_m := 2 * z; shr_r := false; shr_s := false |}
  = {| shr_m := z; shr_r := false; shr_s := false |}.
Proof. destruct z; reflexivity. Qed.

Lemma iter_pos_shr_1 (p : positive) (z : Z) :
  iter_pos shr_1 p {| shr_m := z * 2 ^ Zpos p; shr_r := false; shr_s := false |}
  = {| shr_m := z; shr_r := false; shr_s := false |}.
Proof.
  revert z. induction p as [p IH | p IH |]; intros z; cbn [iter_pos].
  - replace (z * 2 ^ Zpos p~1) with (2 * ((z * 2 ^ Zpos p) * 2 ^ Zpos p)).
    + rewrite shr_1_double, IH, IH. reflexivity.
    + replace (Zpos p~1) with (Zpos p + Zpos p + 1) by lia.
      rewrite !Z.pow_add_r by lia. change (2 ^ 1) with 2. ring.
  - replace (z * 2 ^ Zpos p~0) with ((z * 2 ^ Zpos p) * 2 ^ Zpos p).
    + rewrite IH, IH. reflexivity.
    + replace (Zpos p~0) with (Zpos p + Zpos p) by lia.
      rewrite !Z.pow_add_r by lia. ring.
  - rewrite Z.mul_comm. change (2 ^ 1) with 2. apply shr_1_double.
Qed.

Lemma shr_exact (z e n : Z) :
  0 <= n ->
  shr {| shr_m := z * 2 ^ n; shr_r := false; shr_s := false |} e n
  = ({| shr_m := z; shr_r := false; shr_s := false |}, e + n).
Proof.
  intros Hn. destruct n as [| p | p]; try lia; cbn [shr].
  - rewrite Z.mul_1_r, Z.add_0_r. reflexivity.
  - rewrite iter_pos_shr_1. reflexivity.
Qed.


(** Rounding a mantissa [c * 2^j] of at least 53 digits, with [c] below
    [2^53], is exact. *)
Lemma binary_round_aux_exact (s : bool) (c j e : Z) :
  0 < c < 2 ^ 53 -> 0 <= j -> 2 ^ 52 <= c * 2 ^ j ->
  -1000 <= e + j <= 900 ->
  binary_round_aux prec emax s (c * 2 ^ j) e loc_Exact = canon s c (e + j).
Proof.
  intros Hc Hj Hbig He.
  destruct (Zdigits2_bounds c ltac:(lia)) as (Hd & Hlo & Hhi).
  assert (Hd53 : Zdigits2 c <= 53).
  { assert (Zdigits2 c - 1 < 53); [| lia].
    apply (Z.pow_lt_mono_r_iff 2); lia. }
  assert (Hdj : 53 <= Zdigits2 c + j).
  { assert (52 < Zdigits2 c + j); [| lia].
    apply (Z.pow_lt_mono_r_iff 2); try lia.
    rewrite Z.pow_add_r by lia.
    assert (0 < 2 ^ j) by (apply Z.pow_pos_nonneg; lia). nia. }
  set (k := 53 - Zdigits2 c).
  set (n := Zdigits2 c + j - 53).
  assert (Hsplit : c * 2 ^ j = (c * 2 ^ k) * 2 ^ n).
  { rewrite <- Z.mul_assoc, <- Z.pow_add_r by lia. f_equal. f_equal. lia. }
  assert (Hpos : 0 < c * 2 ^ k).
  { assert (0 < 2 ^ k) by (apply Z.pow_pos_nonneg; lia). nia. }
  assert (Hdk : Zdigits2 (c * 2 ^ k) = 53).
  { rewrite Zdigits2_mul_pow2 by lia. lia. }
  unfold binary_round_aux, shr_fexp.
  rewrite Zdigits2_mul_pow2 by lia.
  replace (fexp prec emax (Zdigits2 c + j + e) - e) with n
    by (unfold fexp, emin, prec, emax; lia).
  cbn [shr_record_of_loc].
  rewrite Hsplit, shr_exact by lia.
  cbn [shr_m loc_of_shr_record round_nearest_even].
  rewrite Hdk.
  replace (fexp prec emax (53 + (e + n)) - (e + n)) with 0
    by (unfold fexp, emin, prec, emax; lia).
  cbn [shr shr_record_of_loc shr_m].
  unfold canon. fold k.
  replace (prec - Zdigits2 c) with k by (unfold prec; lia).
  destruct (c * 2 ^ k) as [| m | m] eqn:Em; try lia.
  replace (e + n <=? emax - prec) with true
    by (symmetry; apply Z.leb_le; unfold emax, prec; lia).
  cbn [Z.to_pos]. f_equal. lia.
Qed.

Lemma canon_mantissa_bounds (s : bool) (c E : Z) :
  0 < c < 2 ^ 53 ->
  exists m : positive,
    canon s c E = S754_finite s m (E - (53 - Zdigits2 c)) /\
    Zpos m = c * 2 ^ (53 - Zdigits2 c) /\
    2 ^ 52 <= Zpos m < 2 ^ 53 /\
    0 <= 53 - Zdigits2 c.
Proof.
  intros Hc.
  destruct (Zdigits2_bounds c ltac:(lia)) as (Hd & Hlo & Hhi).
  assert (Hd53 : Zdigits2 c <= 53).
  { assert (Zdigits2 c - 1 < 53); [| lia].
    apply (Z.pow_lt_mono_r_iff 2); lia. }
  set (k := 53 - Zdigits2 c).
  assert (Hk : 0 < 2 ^ k) by (apply Z.pow_pos_nonneg; lia).
  exists (Z.to_pos (c * 2 ^ k)).
  split; [reflexivity |].
  rewrite Z2Pos.id by nia.
  split; [reflexivity |]. split; [| lia].
  assert (E52 : 2 ^ 52 = 2 ^ (Zdigits2 c - 1) * 2 ^ k)
    by (rewrite <- Z.pow_add_r by lia; f_equal; unfold k; lia).
  assert (E53 : 2 ^ 53 = 2 ^ Zdigits2 c * 2 ^ k)
    by (rewrite <- Z.pow_add_r by lia; f_equal; unfold k; lia).
  rewrite E52, E53. nia.
Qed.

Lemma Zpos_iter_xO (m d : positive) :
  Zpos (Pos.iter xO m d) = Zpos m * 2 ^ Zpos d.
Proof.
  rewrite Z.mul_comm. change (2 ^ Zpos d) with (Z.pow_pos 2 d).
  apply shift_pos_correct.
Qed.

(** [float(n)] is exact below [2^53]. *)
Lemma binary_normalize_exact (n : Z) :
  0 < n < 2 ^ 53 ->
  binary_normalize prec emax n 0 false = canon false n 0.
Proof.
  intros Hn. destruct n as [| p | p]; try lia.
  cbn [binary_normalize]. unfold binary_round.
  destruct (Zdigits2_bounds (Zpos p) ltac:(lia)) as (Hd & Hlo & Hhi).
  cbn [Zdigits2] in Hd, Hlo, Hhi.
  assert (Hd53 : Zpos (digits2_pos p) <= 53).
  { assert (Zpos (digits2_pos p) - 1 < 53); [| lia].
    apply (Z.pow_lt_mono_r_iff 2); lia. }
  replace (fexp prec emax (Zpos (digits2_pos p) + 0))
    with (Zpos (digits2_pos p) - 53)
    by (unfold fexp, emin, prec, emax; lia).
  unfold shl_align.
  destruct (Zpos (digits2_pos p) - 53 - 0) as [| d | d] eqn:Ed; try lia.
  - replace (Zpos p) with (Zpos p * 2 ^ 0) at 1 by (rewrite Z.mul_1_r; reflexivity).
    rewrite binary_round_aux_exact; [reflexivity | lia | lia | | lia].
    rewrite Z.mul_1_r. replace 52 with (Zpos (digits2_pos p) - 1) by lia. lia.
  - rewrite Zpos_iter_xO.
    rewrite binary_round_aux_exact; try lia.
    + f_equal. lia.
    + replace 52 with (Zpos (digits2_pos p) - 1 + Zpos d) by lia.
      rewrite Z.pow_add_r by lia.
      assert (0 < 2 ^ Zpos d) by (apply Z.pow_pos_nonneg; lia). nia.
Qed.

Lemma SFmul_exact (s1 s2 : bool) (c1 c2 E1 E2 : Z) :
  0 < c1 < 2 ^ 53 -> 0 < c2 < 2 ^ 53 -> c1 * c2 < 2 ^ 53 ->
  -400 <= E1 <= 400 -> -400 <= E2 <= 400 ->
  SFmul prec emax (canon s1 c1 E1) (canon s2 c2 E2)
  = canon (xorb s1 s2) (c1 * c2) (E1 + E2).
Proof.
  intros H1 H2 H12 HE1 HE2.
  destruct (canon_mantissa_bounds s1 c1 E1 H1) as (m1 & -> & M1 & B1 & K1).
  destruct (canon_mantissa_bounds s2 c2 E2 H2) as (m2 & -> & M2 & B2 & K2).
  cbn [SFmul]. rewrite Pos2Z.inj_mul, M1, M2.
  replace (c1 * 2 ^ (53 - Zdigits2 c1) * (c2 * 2 ^ (53 - Zdigits2 c2)))
    with (c1 * c2 * 2 ^ ((53 - Zdigits2 c1) + (53 - Zdigits2 c2)))
    by (rewrite Z.pow_add_r by lia; ring).
  rewrite binary_round_aux_exact; try lia.
  - f_equal. lia.
  - rewrite Z.pow_add_r by lia.
    replace (c1 * c2 * (2 ^ (53 - Zdigits2 c1) * 2 ^ (53 - Zdigits2 c2)))
      with (Zpos m1 * Zpos m2) by (rewrite M1, M2; ring).
    change (2 ^ 52) with (2 ^ 26 * 2 ^ 26). nia.
Qed.

Lemma div_eucl_exact (b q : Z) :
  0 < b -> Z.div_eucl (b * q) b = (q, 0).
Proof.
  intros Hb.
  assert (E : Z.div_eucl (b * q) b = ((b * q) / b, (b * q) mod b)).
  { unfold Z.div, Z.modulo. destruct (Z.div_eucl (b * q) b). reflexivity. }
  rewrite E, Z.mul_comm, Z.div_mul, Z.mod_mul by lia. reflexivity.
Qed.

Lemma new_location_0 (n : Z) : new_location n 0 = loc_Exact.
Proof.
  unfold new_location, new_location_even, new_location_odd.
  destruct (Z.even n); reflexivity.
Qed.

Lemma SFdiv_exact (s1 s2 : bool) (c1 c2 c k E1 E2 : Z) :
  0 < c1 < 2 ^ 53 -> 0 < c2 < 2 ^ 53 -> 0 < c < 2 ^ 53 ->
  c1 * 2 ^ k = c2 * c ->
  -300 <= E1 <= 300 -> -300 <= E2 <= 300 -> 0 <= k <= 300 ->
  SFdiv prec emax (canon s1 c1 E1) (canon s2 c2 E2)
  = canon (xorb s1 s2) c (E1 - E2 - k).
Proof.
  intros H1 H2 Hc Hexact HE1 HE2 Hk.
  destruct (canon_mantissa_bounds s1 c1 E1 H1) as (m1 & -> & M1 & B1 & K1).
  destruct (canon_mantissa_bounds s2 c2 E2 H2) as (m2 & -> & M2 & B2 & K2).
  set (a1 := 53 - Zdigits2 c1) in *. set (a2 := 53 - Zdigits2 c2) in *.
  assert (D1 : Zdigits2 (Zpos m1) = 53) by (apply Zdigits2_unique; lia).
  assert (D2 : Zdigits2 (Zpos m2) = 53) by (apply Zdigits2_unique; lia).
  assert (Ha : a1 <= 52 /\ a2 <= 52).
  { destruct (Zdigits2_bounds c1 ltac:(lia)), (Zdigits2_bounds c2 ltac:(lia)).
    unfold a1, a2. lia. }
  assert (P1 : 0 < 2 ^ a1) by (apply Z.pow_pos_nonneg; lia).
  assert (P2 : 0 < 2 ^ a2) by (apply Z.pow_pos_nonneg; lia).
  assert (Pk : 0 < 2 ^ k) by (apply Z.pow_pos_nonneg; lia).
  (* both mantissas against the exact quotient *)
  assert (Id : Zpos m1 * 2 ^ (k + a2) = Zpos m2 * c * 2 ^ a1).
  { rewrite M1, M2, Z.pow_add_r by lia.
    replace (c1 * 2 ^ a1 * (2 ^ k * 2 ^ a2))
      with (c1 * 2 ^ k * 2 ^ a1 * 2 ^ a2) by ring.
    rewrite Hexact. ring. }
  set (t := a1 + 53 - k - a2).
  assert (Ht : 0 <= t).
  { destruct (Z.lt_ge_cases t 0) as [Hneg |]; [exfalso | assumption].
    replace (k + a2) with (a1 + 54 + (k + a2 - a1 - 54)) in Id by lia.
    rewrite !Z.pow_add_r in Id by (unfold t in Hneg; lia).
    assert (0 < 2 ^ (k + a2 - a1 - 54))
      by (apply Z.pow_pos_nonneg; unfold t in Hneg; lia).
    assert (Zpos m2 * c < 2 ^ 53 * 2 ^ 53) by nia.
    assert (2 ^ 52 * 2 ^ 54 <= Zpos m1 * 2 ^ 54 * 2 ^ (k + a2 - a1 - 54)) by nia.
    change (2 ^ 52 * 2 ^ 54) with (2 ^ 53 * 2 ^ 53) in *.
    nia. }
  assert (Pt : 0 < 2 ^ t) by (apply Z.pow_pos_nonneg; lia).
  assert (Hq : Zpos m1 * 2 ^ 53 = Zpos m2 * (c * 2 ^ t)).
  { apply (Z.mul_reg_r _ _ (2 ^ a1)); [lia |].
    replace (Zpos m2 * (c * 2 ^ t) * 2 ^ a1)
      with (Zpos m2 * c * 2 ^ a1 * 2 ^ t) by ring.
    rewrite <- Id, <- !Z.mul_assoc, <- !Z.pow_add_r by lia.
    f_equal. f_equal. unfold t. lia. }
  cbn [SFdiv]. unfold SFdiv_core_binary. rewrite D1, D2.
  replace (Z.min (fexp prec emax (53 + (E1 - a1) - (53 + (E2 - a2))))
                 (E1 - a1 - (E2 - a2)))
    with (E1 - a1 - (E2 - a2) - 53)
    by (unfold fexp, emin, prec, emax; lia).
  replace (E1 - a1 - (E2 - a2) - (E1 - a1 - (E2 - a2) - 53)) with 53 by lia.
  rewrite Z.shiftl_mul_pow2 by lia.
  rewrite Hq, div_eucl_exact, new_location_0 by lia.
  rewrite binary_round_aux_exact.
  - f_equal. unfold t. lia.
  - lia.
  - lia.
  - assert (2 ^ 52 * 2 ^ 53 <= Zpos m2 * (c * 2 ^ t)) by (rewrite <- Hq; nia).
    nia.
  - unfold t. lia.
Qed.

(** ** The two lines *)

Lemma of_int_exact (n : Z) :
  0 < n < 2 ^ 53 -> of_int n = Ok (canon false n 0).
Proof.
  intros Hn. unfold of_int. rewrite binary_normalize_exact by exact Hn.
  reflexivity.
Qed.

Lemma is_ratio_canon (c k a b : Z) :
  0 < c < 2 ^ 53 -> 0 <= k ->
  c * b = a * 2 ^ k ->
  is_ratio (canon false c (- k)) a b.
Proof.
  intros Hc Hk Hab.
  destruct (canon_mantissa_bounds false c (- k) Hc) as (m & -> & M & _ & K).
  set (j := 53 - Zdigits2 c) in *.
  assert (Pj : 0 < 2 ^ j) by (apply Z.pow_pos_nonneg; lia).
  unfold is_ratio, cond_Zopp.
  destruct (Z.leb_spec 0 (- k - j)) as [Hle | Hlt].
  - assert (k = 0) by lia. assert (j = 0) by lia. subst k.
    replace (- 0 - j) with 0 by lia.
    rewrite M. replace j with 0 by lia.
    rewrite Z.mul_1_r in *. lia.
  - replace (- (- k - j)) with (k + j) by lia.
    rewrite M, Z.pow_add_r by lia.
    replace (c * 2 ^ j * b) with (c * b * 2 ^ j) by ring.
    rewrite Hab. ring.
Qed.

(** The two quotients of lines 69 and 70, for a width that fits a C int. *)
Lemma screen_line_x_exact (w h : Z) :
  0 < w < 2 ^ 31 ->
  screen_first_line_x (w, h) = Ok (canon false (w * 37) (- 7)) /\
  screen_second_line_x (w, h) = Ok (canon false (w * 91) (- 7)).
Proof.
  intros Hw. unfold screen_first_line_x, screen_second_line_x, int_truediv.
  cbn [fst Z.eqb rbind].
  rewrite (of_int_exact (w * 555)), (of_int_exact (w * 1365)),
    (of_int_exact 1920) by lia.
  cbn [rbind].
  rewrite (SFdiv_exact false false (w * 555) 1920 (w * 37) 7 0 0) by lia.
  rewrite (SFdiv_exact false false (w * 1365) 1920 (w * 91) 7 0 0) by lia.
  split; reflexivity.
Qed.

(** Lines 71 and 72: times 640, then over the width. *)
Lemma times_640_exact (w c : Z) :
  0 < w < 2 ^ 31 -> 0 < c <= 100 ->
  mul_int (canon false (w * c) (- 7)) 640
  = Ok (canon false (w * c * 640) (- 7)).
Proof.
  intros Hw Hc. unfold mul_int, mul.
  rewrite (of_int_exact 640) by lia. cbn [rbind].
  rewrite (SFmul_exact false false (w * c) 640 (- 7) 0) by nia.
  reflexivity.
Qed.

Lemma over_width_exact (w c r : Z) :
  0 < w < 2 ^ 31 -> 0 < c <= 100 -> 0 < r < 2 ^ 53 -> c * 640 = r ->
  truediv_int (canon false (w * c * 640) (- 7)) w = Ok (canon false r (- 7)).
Proof.
  intros Hw Hc Hr Hcr. unfold truediv_int, truediv.
  rewrite (of_int_exact w) by lia. cbn [rbind].
  replace (is_zero (canon false w 0)) with false by reflexivity.
  rewrite (SFdiv_exact false false (w * c * 640) w r 0 (- 7) 0) by nia.
  reflexivity.
Qed.

Lemma c_int_range (v : Z) : - 2 ^ 31 <= c_int v < 2 ^ 31.
Proof.
  unfold c_int.
  pose proof (Z.mod_pos_bound (v + 2 ^ 31) (2 ^ 32) ltac:(lia)). lia.
Qed.

Lemma GetSystemMetrics_range (user32 : Z -> Z) (n : Z) :
  - 2 ^ 31 <= GetSystemMetrics user32 n < 2 ^ 31.
Proof. apply c_int_range. Qed.

(** C10. For every positive width that [GetSystemMetrics] returns, and
    every height, [line_pos] returns the doubles 185.0 and 455.0: no
    operation on the way rounds, and the width cancels. *)
Theorem line_pos_independent_of_resolution
    (user32 : Z -> Z) (Hw : 0 < GetSystemMetrics user32 0) :
  line_pos user32 = Ok lines_640 /\
  of_int 185 = Ok (fst lines_640) /\
  of_int 455 = Ok (snd lines_640).
Proof.
  split; [| split; reflexivity].
  pose proof (GetSystemMetrics_range user32 0) as Hr.
  unfold line_pos. cbv zeta.
  set (w := GetSystemMetrics user32 0) in *.
  set (h := GetSystemMetrics user32 1).
  destruct (screen_line_x_exact w h ltac:(lia)) as [-> ->]. cbn [rbind fst].
  rewrite (times_640_exact w 37) by lia. cbn [rbind].
  rewrite (over_width_exact w 37 23680) by lia. cbn [rbind].
  rewrite (times_640_exact w 91) by lia. cbn [rbind].
  rewrite (over_width_exact w 91 58240) by lia.
  reflexivity.
Qed.

Lemma line_pos_independent_of_resolution_witness :
  0 < GetSystemMetrics (screen 1366 768) 0 /\
  line_pos (screen 1366 768) = Ok lines_640.
Proof.
  split; [reflexivity |].
  apply (line_pos_independent_of_resolution (screen 1366 768)). reflexivity.
Defined.

(** C7. The first line is at 555/1920 of the width and the second at
    1365/1920, as exact doubles, and [line_pos] is these two times 640 over
    the width; at width 1920 they are 555.0 and 1365.0, and the returned
    pair is 185.0 and 455.0. *)
Theorem line_pos_fractions
    (user32 : Z -> Z) (height : Z) (Hw : 0 < GetSystemMetrics user32 0) :
  (exists x1 x2 : float,
      screen_first_line_x (GetSystemMetrics user32 0, GetSystemMetrics user32 1)
        = Ok x1 /\
      is_ratio x1 (GetSystemMetrics user32 0 * 555) 1920 /\
      screen_second_line_x (GetSystemMetrics user32 0, GetSystemMetrics user32 1)
        = Ok x2 /\
      is_ratio x2 (GetSystemMetrics user32 0 * 1365) 1920 /\
      line_pos user32 =
        (t1 <- mul_int x1 640 ;;
         pos_line1 <- truediv_int t1 (GetSystemMetrics user32 0) ;;
         t2 <- mul_int x2 640 ;;
         pos_line2 <- truediv_int t2 (GetSystemMetrics user32 0) ;;
         Ok (pos_line1, pos_line2))%result) /\
  GetSystemMetrics (screen 1920 height) 0 = 1920 /\
  screen_first_line_x (1920, GetSystemMetrics (screen 1920 height) 1)
    = of_int 555 /\
  screen_second_line_x (1920, GetSystemMetrics (screen 1920 height) 1)
    = of_int 1365 /\
  line_pos (screen 1920 height) = Ok lines_640 /\
  is_ratio (fst lines_640) 185 1 /\
  is_ratio (snd lines_640) 455 1.
Proof.
  split.
  - pose proof (GetSystemMetrics_range user32 0) as Hr.
    set (w := GetSystemMetrics user32 0) in *.
    set (h := GetSystemMetrics user32 1).
    destruct (screen_line_x_exact w h ltac:(lia)) as [E1 E2].
    exists (canon false (w * 37) (- 7)), (canon false (w * 91) (- 7)).
    split; [exact E1 |].
    split; [apply (is_ratio_canon (w * 37) 7 (w * 555) 1920); lia |].
    split; [exact E2 |].
    split; [apply (is_ratio_canon (w * 91) 7 (w * 1365) 1920); lia |].
    unfold line_pos. cbv zeta. fold w. fold h. rewrite E1, E2. reflexivity.
  - repeat split; vm_compute; reflexivity.
Qed.

Lemma line_pos_fractions_witness :
  0 < GetSystemMetrics (screen 1366 768) 0 /\
  line_pos (screen 1920 1080) = Ok lines_640 /\
  exists x1 : float,
    screen_first_line_x (1366, 768) = Ok x1 /\
    is_ratio x1 (1366 * 555) 1920.
Proof.
  split; [reflexivity |].
  destruct (line_pos_fractions (screen 1366 768) 1080 eq_refl)
    as ((x1 & x2 & E1 & R1 & _) & _ & _ & _ & L & _).
  split; [exact L |].
  exists x1. split; [exact E1 | exact R1].
Defined.

(** * The rest of the code *)

(** ** How many landmarks the code needs *)

Lemma getitem_nth {A : Type} (l : list A) (n : nat) (d : A) :
  (n < List.length l)%nat -> getitem l (Z.of_nat n) = Ok (nth n l d).
Proof.
  intros Hn. unfold getitem.
  destruct (Z.ltb_spec (Z.of_nat n) 0) as [Hneg | _]; [lia |].
  destruct (Z.leb_spec 0 (Z.of_nat n)) as [_ | Hneg]; [| lia].
  destruct (Z.ltb_spec (Z.of_nat n) (Z.of_nat (List.length l))) as [_ | Hge];
    [| lia].
  simpl. rewrite Nat2Z.id, (nth_error_nth' l d Hn). reflexivity.
Qed.

Lemma getitem_short {A : Type} (l : list A) (i : Z) :
  Z.of_nat (List.length l) <= i -> getitem l i = Raise IndexError.
Proof.
  intros Hi. unfold getitem.
  destruct (Z.ltb_spec i 0) as [Hneg | _]; [lia |].
  destruct (Z.ltb_spec i (Z.of_nat (List.length l))) as [Hlt | _]; [lia |].
  rewrite andb_false_r. reflexivity.
Qed.

Lemma getitem_raise {A : Type} (l : list A) (i : Z) (e : exn) :
  getitem l i = Raise e -> e = IndexError.
Proof.
  unfold getitem.
  destruct ((0 <=? _) && (_ <? _)); [| intros H; injection H as <-; reflexivity].
  destruct (nth_error l _); [discriminate |].
  intros H; injection H as <-; reflexivity.
Qed.

Lemma fingers_step_raise (o_position_list : list position)
      (fingers : list Z) (i : Z) (e : exn) :
  fingers_step o_position_list fingers i = Raise e -> e = IndexError.
Proof.
  unfold fingers_step, lt_ints, gt_ints, tip_y, joint_y, item2.
  destruct (getitem finger_tips i) as [t | e0] eqn:Et; cbn [rbind];
    [| intros H; injection H as <-; exact (getitem_raise _ _ _ Et)].
  destruct (getitem o_position_list t) as [tip | e0] eqn:E1; cbn [rbind];
    [| intros H; injection H as <-; exact (getitem_raise _ _ _ E1)].
  destruct (getitem o_position_list (t - 2)) as [joint | e0] eqn:E2;
    cbn [rbind];
    [discriminate | intros H; injection H as <-; exact (getitem_raise _ _ _ E2)].
Qed.

Lemma total_fingers_raise (o_position_list : list position) (e : exn) :
  total_fingers o_position_list = Raise e -> e = IndexError.
Proof.
  unfold total_fingers. cbn [fingers_loop].
  destruct (fingers_step o_position_list [] 1) as [f1 | e1] eqn:E1;
    cbn [rbind];
    [| intros H; injection H as <-; exact (fingers_step_raise _ _ _ _ E1)].
  destruct (fingers_step o_position_list f1 2) as [f2 | e2] eqn:E2;
    cbn [rbind];
    [| intros H; injection H as <-; exact (fingers_step_raise _ _ _ _ E2)].
  destruct (fingers_step o_position_list f2 3) as [f3 | e3] eqn:E3;
    cbn [rbind];
    [| intros H; injection H as <-; exact (fingers_step_raise _ _ _ _ E3)].
  destruct (fingers_step o_position_list f3 4) as [f4 | e4] eqn:E4;
    cbn [rbind];
    [discriminate
    | intros H; injection H as <-; exact (fingers_step_raise _ _ _ _ E4)].
Qed.

Lemma fingers_step_long (o_position_list : list position)
      (fingers : list Z) (i : Z) (t : nat) :
  getitem finger_tips i = Ok (Z.of_nat t) ->
  (2 <= t < List.length o_position_list)%nat ->
  exists fingers',
    fingers_step o_position_list fingers i = Ok fingers' /\
    count_occ Z.eq_dec fingers' 1 =
      (count_occ Z.eq_dec fingers 1%Z
       + b2n (above (landmark_at o_position_list t)
                    (landmark_at o_position_list (t - 2))))%nat.
Proof.
  intros Ht Hlen.
  unfold fingers_step, lt_ints, gt_ints, tip_y, joint_y, item2, landmark_at.
  rewrite Ht. cbn [rbind].
  replace (Z.of_nat t - 2) with (Z.of_nat (t - 2)) by lia.
  set (d := {| index := 0; coordinate_x := 0; coordinate_y := 0 |}).
  rewrite (getitem_nth o_position_list t d) by lia.
  rewrite (getitem_nth o_position_list (t - 2) d) by lia.
  cbn [rbind]. eexists. split; [reflexivity |].
  unfold above.
  destruct (Z.ltb_spec (coordinate_y (nth t o_position_list d))
                       (coordinate_y (nth (t - 2) o_position_list d)));
    destruct (Z.gtb_spec (coordinate_y (nth t o_position_list d))
                         (coordinate_y (nth (t - 2) o_position_list d)));
    rewrite ?count_occ_app; simpl; lia.
Qed.

Lemma total_fingers_long (o_position_list : list position) :
  (21 <= List.length o_position_list)%nat ->
  total_fingers o_position_list =
    Ok (b2n (above (landmark_at o_position_list 8)
                   (landmark_at o_position_list 6))
        + b2n (above (landmark_at o_position_list 12)
                     (landmark_at o_position_list 10))
        + b2n (above (landmark_at o_position_list 16)
                     (landmark_at o_position_list 14))
        + b2n (above (landmark_at o_position_list 20)
                     (landmark_at o_position_list 18)))%nat.
Proof.
  intros Hlen. unfold total_fingers. cbn [fingers_loop].
  destruct (fingers_step_long o_position_list [] 1 8 eq_refl ltac:(lia))
    as (f1 & -> & C1). cbn [rbind].
  destruct (fingers_step_long o_position_list f1 2 12 eq_refl ltac:(lia))
    as (f2 & -> & C2). cbn [rbind].
  destruct (fingers_step_long o_position_list f2 3 16 eq_refl ltac:(lia))
    as (f3 & -> & C3). cbn [rbind].
  destruct (fingers_step_long o_position_list f3 4 20 eq_refl ltac:(lia))
    as (f4 & -> & C4). cbn [rbind].
  rewrite C4, C3, C2, C1. reflexivity.
Qed.

Lemma total_fingers_short (o_position_list : list position) :
  (List.length o_position_list < 21)%nat ->
  total_fingers o_position_list = Raise IndexError.
Proof.
  intros Hlen.
  destruct (total_fingers o_position_list) as [n | e] eqn:E.
  - destruct (total_fingers_inv _ _ E)
      as (p6 & p8 & p10 & p12 & p14 & p16 & p18 & p20
          & _ & _ & _ & _ & _ & _ & _ & H20 & _).
    apply getitem_Ok_range in H20; lia.
  - rewrite (total_fingers_raise _ _ E). reflexivity.
Qed.

(** The count of extended fingers exists exactly for the lists of at least
    21 landmarks, where it is the number of the four fingertips 8, 12, 16
    and 20 that lie above the landmark two below them, so at most 4; a
    shorter list raises [IndexError]. *)
Theorem total_fingers_needs_21_landmarks (o_position_list : list position) :
  total_fingers o_position_list =
    (if (21 <=? List.length o_position_list)%nat then
       Ok (b2n (above (landmark_at o_position_list 8)
                      (landmark_at o_position_list 6))
           + b2n (above (landmark_at o_position_list 12)
                        (landmark_at o_position_list 10))
           + b2n (above (landmark_at o_position_list 16)
                        (landmark_at o_position_list 14))
           + b2n (above (landmark_at o_position_list 20)
                        (landmark_at o_position_list 18)))%nat
     else Raise IndexError) /\
  (b2n (above (landmark_at o_position_list 8)
              (landmark_at o_position_list 6))
   + b2n (above (landmark_at o_position_list 12)
                (landmark_at o_position_list 10))
   + b2n (above (landmark_at o_position_list 16)
                (landmark_at o_position_list 14))
   + b2n (above (landmark_at o_position_list 20)
                (landmark_at o_position_list 18)) <= 4)%nat.
Proof.
  split.
  - destruct (Nat.leb_spec 21 (List.length o_position_list)) as [H | H].
    + apply total_fingers_long. exact H.
    + apply total_fingers_short. exact H.
  - destruct (above _ _), (above _ _), (above _ _), (above _ _); simpl; lia.
Qed.

Lemma frame_short {W : Type} (player : Command W) (pos : list position)
      (lines : float * float) (lbl : option string) (w : W) :
  (0 < List.length pos < 21)%nat ->
  frame player pos lines lbl w = (Raise IndexError, w).
Proof.
  intros [Hpos Hs].
  rewrite (frame_raise player _ lines lbl IndexError w
             (total_fingers_short _ Hs)).
  destruct (List.length pos); [lia | reflexivity].
Qed.

Lemma frame_long {W : Type} (player : Command W) (pos : list position)
      (lines : float * float) (lbl : option string) (w : W) :
  (21 <= List.length pos)%nat ->
  fst (frame player pos lines lbl w) = Ok tt.
Proof.
  intros Hl.
  pose proof (total_fingers_long _ Hl) as Hn.
  set (n := (_ + _ + _ + _)%nat) in Hn.
  rewrite (frame_run player _ lines lbl n w Hn).
  set (d := {| index := 0; coordinate_x := 0; coordinate_y := 0 |}).
  pose proof (getitem_nth pos 6 d ltac:(lia)) as H6.
  pose proof (getitem_nth pos 8 d ltac:(lia)) as H8.
  pose proof (getitem_nth pos 9 d ltac:(lia)) as H9.
  pose proof (getitem_nth pos 10 d ltac:(lia)) as H10.
  pose proof (getitem_nth pos 12 d ltac:(lia)) as H12.
  destruct n as [| [| [| n']]].
  - rewrite (total_fingers_0_run player _ lines lbl _ w H9). reflexivity.
  - rewrite (total_fingers_1_run player _ lines lbl _ _ w H6 H8).
    reflexivity.
  - rewrite (total_fingers_2_run player _ lines lbl _ _ _ _ _ w
               H6 H8 H9 H10 H12).
    reflexivity.
  - reflexivity.
Qed.

(** A frame raises exactly when the list has between 1 and 20 landmarks; the
    exception is [IndexError] and no method of the player has been called.
    With no landmark, or with 21 and more, the frame returns. *)
Theorem frame_raises_iff_short
    {W : Type} (player : Command W) (o_position_list : list position)
    (lines_pos_x : float * float) (label : option string) (w : W) :
  if ((0 <? List.length o_position_list)
      && (List.length o_position_list <? 21))%nat
  then frame player o_position_list lines_pos_x label w = (Raise IndexError, w)
  else fst (frame player o_position_list lines_pos_x label w) = Ok tt.
Proof.
  destruct (Nat.ltb_spec 0 (List.length o_position_list)) as [Hpos | Hzero];
    cbn [andb].
  - destruct (Nat.ltb_spec (List.length o_position_list) 21) as [Hs | Hl].
    + apply frame_short. lia.
    + apply frame_long. exact Hl.
  - destruct o_position_list; [reflexivity | simpl in Hzero; lia].
Qed.

(** Called on their own, the three gesture methods need 10, 9 and 13
    landmarks: with that many they return, with fewer they raise
    [IndexError] before any method of the player is called. *)
Theorem gesture_methods_bounds
    {W : Type} (player : Command W) (self : HandGesture) (w : W) :
  (if (9 <? List.length (o_pos_lst self))%nat
   then fst (total_fingers_0 player self w) = Ok tt
   else total_fingers_0 player self w = (Raise IndexError, w)) /\
  (if (8 <? List.length (o_pos_lst self))%nat
   then fst (total_fingers_1 player self w) = Ok tt
   else total_fingers_1 player self w = (Raise IndexError, w)) /\
  (if (12 <? List.length (o_pos_lst self))%nat
   then fst (total_fingers_2 player self w) = Ok tt
   else total_fingers_2 player self w = (Raise IndexError, w)).
Proof.
  destruct self as [pos lines lbl]. cbn [o_pos_lst].
  set (d := {| index := 0; coordinate_x := 0; coordinate_y := 0 |}).
  split; [| split].
  - destruct (Nat.ltb_spec 9 (List.length pos)) as [H | H].
    + rewrite (total_fingers_0_run player pos lines lbl _ w
                 (getitem_nth pos 9 d H)).
      reflexivity.
    + unfold total_fingers_0, bind, lift, pand, item1. cbn [o_pos_lst].
      rewrite (getitem_short pos 9) by lia. reflexivity.
  - destruct (Nat.ltb_spec 8 (List.length pos)) as [H | H].
    + rewrite (total_fingers_1_run player pos lines lbl _ _ w
                 (getitem_nth pos 6 d ltac:(lia)) (getitem_nth pos 8 d H)).
      reflexivity.
    + unfold total_fingers_1, index_recheck, bind, lift, lt_ints, item2.
      cbn [o_pos_lst].
      rewrite (getitem_short pos 8) by lia. reflexivity.
  - destruct (Nat.ltb_spec 12 (List.length pos)) as [H | H].
    + rewrite (total_fingers_2_run player pos lines lbl _ _ _ _ _ w
                 (getitem_nth pos 6 d ltac:(lia))
                 (getitem_nth pos 8 d ltac:(lia))
                 (getitem_nth pos 9 d ltac:(lia))
                 (getitem_nth pos 10 d ltac:(lia))
                 (getitem_nth pos 12 d H)).
      reflexivity.
    + unfold total_fingers_2, middle_recheck, bind, lift, pand, lt_ints,
        item2.
      cbn [o_pos_lst].
      rewrite (getitem_short pos 12) by lia. reflexivity.
Qed.

(** ** What a frame does, on any player *)

(** The frame on any player is the log of the recording player, performed
    on that player; the log has at most one entry. *)
Lemma frame_performs_decisions
    {W : Type} (player : Command W) (pos : list position)
    (lines : float * float) (lbl : option string) (w : W) :
  frame player pos lines lbl w =
    (fst (decisions pos lines lbl),
     perform_all player (snd (decisions pos lines lbl)) w) /\
  (List.length (snd (decisions pos lines lbl)) <= 1)%nat.
Proof.
  unfold decisions.
  destruct (total_fingers pos) as [n | e] eqn:Hn.
  - destruct (total_fingers_inv pos n Hn)
      as (p6 & p8 & p10 & p12 & p14 & p16 & p18 & p20
          & H6 & H8 & H10 & H12 & _ & _ & _ & H20 & _).
    destruct (getitem_below pos 20 9 p20 H20 ltac:(lia)) as [p9 H9].
    rewrite (frame_run player pos lines lbl n w Hn).
    rewrite (frame_run Recorder pos lines lbl n [] Hn).
    destruct n as [| [| [| n']]].
    + rewrite !(total_fingers_0_run _ pos lines lbl p9 _ H9).
      cbn [fst snd]. rewrite perform_all_Recorder. cbn [app].
      split; [reflexivity |]. destruct (centre_zone _ _); simpl; lia.
    + rewrite !(total_fingers_1_run _ pos lines lbl p6 p8 _ H6 H8).
      cbn [fst snd]. rewrite perform_all_Recorder. cbn [app].
      split; [reflexivity |].
      destruct (above p8 p6); [| simpl; lia].
      apply two_gated_le_1, label_not_both.
    + rewrite !(total_fingers_2_run _ pos lines lbl p6 p8 p9 p10 p12 _
                  H6 H8 H9 H10 H12).
      cbn [fst snd]. rewrite perform_all_Recorder. cbn [app].
      split; [reflexivity |].
      destruct (above p12 p10 && above p8 p6); [| simpl; lia].
      apply two_gated_le_1, label_not_both.
    + split; [reflexivity | simpl; lia].
  - rewrite !(frame_raise _ pos lines lbl e _ Hn).
    split; [reflexivity | simpl; lia].
Qed.

Lemma perform_all_Youtube (ops : list operation) (w : list event) :
  perform_all Youtube ops w = w ++ events_of ops.
Proof.
  revert w. induction ops as [| op ops IH]; intros w.
  - symmetry. apply app_nil_r.
  - unfold perform_all in *. cbn [fold_left]. rewrite IH.
    unfold events_of. cbn [flat_map].
    destruct op; simpl; rewrite <- app_assoc; reflexivity.
Qed.

(** On the YouTube player a frame leaves the earlier events as they are and
    appends either nothing or one key press followed by one sleep of 0.7
    seconds; the key is the one of the method the recording player logs. *)
Theorem frame_on_Youtube
    (pos : list position) (lines : float * float) (lbl : option string)
    (w : list event) :
  exists ops : list operation,
    decisions pos lines lbl = (fst (frame Youtube pos lines lbl w), ops) /\
    snd (frame Youtube pos lines lbl w) = w ++ events_of ops /\
    (ops = [] \/ exists op, ops = [op] /\
                 events_of ops = [press (key_of op); sleep seconds_0_7]).
Proof.
  destruct (frame_performs_decisions Youtube pos lines lbl w) as [E L].
  exists (snd (decisions pos lines lbl)).
  rewrite E. cbn [fst snd]. rewrite perform_all_Youtube.
  split; [destruct (decisions pos lines lbl); reflexivity |].
  split; [reflexivity |].
  destruct (snd (decisions pos lines lbl)) as [| op [| op' rest]].
  - left. reflexivity.
  - right. exists op. split; reflexivity.
  - simpl in L. lia.
Qed.

(** ** The zones of the lines [line_pos] returns *)

(** With the lines 185.0 and 455.0 the left zone is [x < 185], the centre
    zone [185 < x < 455] and the right zone [x > 455], on whole pixels: the
    columns 185 and 455 belong to no zone. *)
Theorem zones_of_lines_640 (x : Z) :
  left_zone lines_640 x = (x <? 185) /\
  centre_zone lines_640 x = ((185 <? x) && (x <? 455)) /\
  right_zone lines_640 x = (455 <? x).
Proof.
  unfold left_zone, centre_zone, right_zone, int_lt, int_gt, int_compare,
    lines_640, cond_Zopp.
  cbn [fst snd Z.leb Z.compare Z.opp].
  change (2 ^ 45) with 35184372088832. change (2 ^ 44) with 17592186044416.
  repeat split.
  - destruct (Z.compare_spec (x * 35184372088832) 6509108836433920);
      destruct (Z.ltb_spec x 185); try reflexivity; lia.
  - destruct (Z.compare_spec (x * 35184372088832) 6509108836433920);
      destruct (Z.compare_spec (x * 17592186044416) 8004444650209280);
      destruct (Z.ltb_spec 185 x); destruct (Z.ltb_spec x 455);
      try reflexivity; lia.
  - destruct (Z.compare_spec (x * 17592186044416) 8004444650209280);
      destruct (Z.ltb_spec 455 x); try reflexivity; lia.
Qed.

(** ** The position list *)

Lemma finger_position_loop_spec (landmark : list NormalizedLandmark)
      (i : Z) (shape : Z * Z) (acc pos : list position) :
  finger_position_loop landmark i shape acc = Ok pos ->
  exists new : list position,
    pos = acc ++ new /\
    map index new = map (fun k => i + Z.of_nat k) (seq 0 (List.length landmark)).
Proof.
  revert i acc. induction landmark as [| lm rest IH]; intros i acc; simpl.
  - intros H. injection H as <-. exists []. split; [| reflexivity].
    symmetry. apply app_nil_r.
  - destruct (mul_int (landmark_x lm) (snd shape)) as [px | e]; [| discriminate].
    cbn [rbind].
    destruct (int_of_float px) as [cx | e]; [| discriminate]. cbn [rbind].
    destruct (mul_int (landmark_y lm) (fst shape)) as [py | e]; [| discriminate].
    cbn [rbind].
    destruct (int_of_float py) as [cy | e]; [| discriminate]. cbn [rbind].
    intros H. apply IH in H as (new & -> & Hidx).
    exists ({| index := i; coordinate_x := cx; coordinate_y := cy |} :: new).
    split; [rewrite <- app_assoc; reflexivity |].
    cbn [map index]. rewrite Hidx, <- seq_shift, map_map. f_equal.
    + lia.
    + apply map_ext. intros k. lia.
Qed.

Lemma finger_position_length
      (my_hand : list NormalizedLandmark)
      (others : list (list NormalizedLandmark))
      (shape : Z * Z) (pos : list position) :
  finger_position (Some (my_hand :: others)) shape = Ok pos ->
  List.length pos = List.length my_hand /\
  map index pos = map Z.of_nat (seq 0 (List.length my_hand)).
Proof.
  unfold finger_position. cbn [rbind getitem]. simpl.
  change (getitem (my_hand :: others) 0)
    with (Ok (A := list NormalizedLandmark) my_hand).
  cbn [rbind]. intros H.
  apply finger_position_loop_spec in H as (new & -> & Hidx).
  cbn [app]. split; [| exact Hidx].
  rewrite <- (length_map index), Hidx, length_map, length_seq. reflexivity.
Qed.

Lemma finger_position_loop_pixels (landmark : list NormalizedLandmark)
      (i : Z) (shape : Z * Z) (acc pos : list position) :
  finger_position_loop landmark i shape acc = Ok pos ->
  exists new : list position,
    pos = acc ++ new /\
    Forall2 (fun lm p =>
               pixel (landmark_x lm) (snd shape) = Ok (coordinate_x p) /\
               pixel (landmark_y lm) (fst shape) = Ok (coordinate_y p))
            landmark new.
Proof.
  revert i acc pos.
  induction landmark as [| lm rest IH]; intros i acc pos; simpl.
  - intros H. injection H as <-. exists []. split; [| constructor].
    symmetry. apply app_nil_r.
  - destruct (mul_int (landmark_x lm) (snd shape)) as [px | e] eqn:Mx;
      [| discriminate].
    cbn [rbind].
    destruct (int_of_float px) as [cx | e] eqn:Ix; [| discriminate].
    cbn [rbind].
    destruct (mul_int (landmark_y lm) (fst shape)) as [py | e] eqn:My;
      [| discriminate].
    cbn [rbind].
    destruct (int_of_float py) as [cy | e] eqn:Iy; [| discriminate].
    cbn [rbind].
    intros H. apply IH in H as (new & -> & Hnew).
    exists ({| index := i; coordinate_x := cx; coordinate_y := cy |} :: new).
    split; [rewrite <- app_assoc; reflexivity |].
    constructor; [| exact Hnew].
    unfold pixel. rewrite Mx, My. cbn [rbind coordinate_x coordinate_y].
    split; assumption.
Qed.

(** The position list has one entry per landmark of the first hand, in the
    order of the landmarks: entry [i] carries the index [i], its [x] is
    [int(x * width)] and its [y] is [int(y * height)] of landmark [i]. The
    other hands are not read. *)
Theorem finger_position_first_hand
    (my_hand : list NormalizedLandmark)
    (others : list (list NormalizedLandmark))
    (shape : Z * Z) (o_position_list : list position)
    (H : finger_position (Some (my_hand :: others)) shape
         = Ok o_position_list) :
  Forall2 (fun landmarks p =>
             pixel (landmark_x landmarks) (snd shape) = Ok (coordinate_x p) /\
             pixel (landmark_y landmarks) (fst shape) = Ok (coordinate_y p))
          my_hand o_position_list /\
  List.length o_position_list = List.length my_hand /\
  map index o_position_list = map Z.of_nat (seq 0 (List.length my_hand)) /\
  finger_position (Some [my_hand]) shape = Ok o_position_list.
Proof.
  destruct (finger_position_length my_hand others shape _ H) as [L I].
  split; [| split; [exact L | split; [exact I | exact H]]].
  unfold finger_position in H.
  change (getitem (my_hand :: others) 0)
    with (Ok (A := list NormalizedLandmark) my_hand) in H.
  cbn [rbind] in H.
  apply finger_position_loop_pixels in H as (new & -> & Hnew).
  exact Hnew.
Qed.

Lemma finger_position_first_hand_witness :
  finger_position (Some [three_landmarks; hand_landmarks 21]) (480, 640)
    = Ok [{| index := 0; coordinate_x := 160; coordinate_y := 240 |};
          {| index := 1; coordinate_x := 320; coordinate_y := 360 |};
          {| index := 2; coordinate_x := 640; coordinate_y := 0 |}] /\
  Forall2 (fun landmarks p =>
             pixel (landmark_x landmarks) 640 = Ok (coordinate_x p) /\
             pixel (landmark_y landmarks) 480 = Ok (coordinate_y p))
          three_landmarks
          [{| index := 0; coordinate_x := 160; coordinate_y := 240 |};
           {| index := 1; coordinate_x := 320; coordinate_y := 360 |};
           {| index := 2; coordinate_x := 640; coordinate_y := 0 |}] /\
  pixel quarter 640 = Ok 160 /\
  pixel one 640 = Ok 640.
Proof.
  split; [reflexivity |].
  destruct (finger_position_first_hand three_landmarks [hand_landmarks 21]
              (480, 640)
              [{| index := 0; coordinate_x := 160; coordinate_y := 240 |};
               {| index := 1; coordinate_x := 320; coordinate_y := 360 |};
               {| index := 2; coordinate_x := 640; coordinate_y := 0 |}]
              eq_refl)
    as (F & _ & _ & _).
  split; [exact F |]. split; reflexivity.
Defined.

(** A hand of at least 21 landmarks, as the detector gives it, never makes
    the frame raise: once [finger_position] has returned, the frame
    returns. *)
Theorem detected_hand_never_raises
    {W : Type} (player : Command W)
    (my_hand : list NormalizedLandmark)
    (others : list (list NormalizedLandmark))
    (shape : Z * Z) (o_position_list : list position)
    (lines_pos_x : float * float) (label : option string) (w : W)
    (H : finger_position (Some (my_hand :: others)) shape
         = Ok o_position_list)
    (H21 : (21 <= List.length my_hand)%nat) :
  fst (frame player o_position_list lines_pos_x label w) = Ok tt.
Proof.
  apply frame_long.
  destruct (finger_position_length my_hand others shape _ H) as [L _].
  lia.
Qed.

Lemma detected_hand_never_raises_witness :
  finger_position (Some [hand_landmarks 21]) (480, 640)
    = Ok (hand_of 320 (repeat 240 21)) /\
  (21 <= List.length (hand_landmarks 21))%nat /\
  fst (frame Recorder (hand_of 320 (repeat 240 21)) lines_640 None []) = Ok tt.
Proof.
  split; [reflexivity |]. split; [simpl; lia |].
  apply (detected_hand_never_raises Recorder (hand_landmarks 21) []
           (480, 640) (hand_of 320 (repeat 240 21)) lines_640 None []).
  - reflexivity.
  - simpl. lia.
Defined.

(** ** The loop *)

Lemma perform_all_app {W : Type} (player : Command W)
      (a b : list operation) (w : W) :
  perform_all player (a ++ b) w = perform_all player b (perform_all player a w).
Proof. unfold perform_all. apply fold_left_app. Qed.

(** One turn, on any player, is one fixed list of at most one method. *)
Lemma turn_performs (lines : float * float) (c : capture) :
  exists (r : result unit) (ops : list operation),
    (List.length ops <= 1)%nat /\
    forall (W : Type) (player : Command W) (w : W),
      turn player lines c w = (r, perform_all player ops w).
Proof.
  unfold turn.
  destruct (hand_type (multi_handedness c)) as [lbl | e].
  - destruct (finger_position (multi_hand_landmarks c) (shape c))
      as [pos | e].
    + exists (fst (decisions pos lines lbl)), (snd (decisions pos lines lbl)).
      split; [apply (frame_performs_decisions Recorder pos lines lbl []) |].
      intros W player w. unfold bind, lift.
      apply (frame_performs_decisions player pos lines lbl w).
    + exists (Raise e), []. split; [simpl; lia |]. reflexivity.
  - exists (Raise e), []. split; [simpl; lia |]. reflexivity.
Qed.

Lemma main_loop_performs (lines : float * float) (stream : list capture) :
  exists (r : result unit) (ops : list operation),
    (List.length ops <= List.length stream)%nat /\
    forall (W : Type) (player : Command W) (w : W),
      main_loop player lines stream w = (r, perform_all player ops w).
Proof.
  induction stream as [| c rest IH].
  - exists (Ok tt), []. split; [simpl; lia |]. reflexivity.
  - cbn [main_loop].
    destruct (negb (success c));
      [exists (Ok tt), []; split; [simpl; lia | reflexivity] |].
    destruct (q_pressed c);
      [exists (Ok tt), []; split; [simpl; lia | reflexivity] |].
    destruct (turn_performs lines c) as (r1 & ops1 & L1 & T1).
    destruct IH as (r2 & ops2 & L2 & T2).
    destruct r1 as [[] | e].
    + exists r2, (ops1 ++ ops2). split.
      * rewrite length_app. simpl. lia.
      * intros W player w. unfold bind. rewrite T1, T2, perform_all_app.
        reflexivity.
    + exists (Raise e), ops1. split; [simpl; lia |].
      intros W player w. unfold bind. rewrite T1. reflexivity.
Qed.

(** In a run of the loop the player is called at most once per capture,
    whatever the captures are; on the YouTube player the run leaves the
    earlier events as they are and appends, for each call, one key press
    followed by one sleep of 0.7 seconds. *)
Theorem main_loop_one_key_per_capture
    (lines_pos_x : float * float) (stream : list capture) (w : list event) :
  exists ops : list operation,
    (List.length ops <= List.length stream)%nat /\
    snd (main_loop Recorder lines_pos_x stream []) = ops /\
    snd (main_loop Youtube lines_pos_x stream w) = w ++ events_of ops /\
    List.length (events_of ops) = (2 * List.length ops)%nat.
Proof.
  destruct (main_loop_performs lines_pos_x stream) as (r & ops & L & T).
  exists ops. split; [exact L |].
  rewrite !T. cbn [snd]. rewrite perform_all_Recorder, perform_all_Youtube.
  split; [reflexivity |]. split; [reflexivity |].
  clear. induction ops as [| op ops IH]; [reflexivity |].
  unfold events_of in *. cbn [flat_map app List.length]. rewrite IH. lia.
Qed.

(** The loop ends at the first capture whose read has failed or at which
    "q" is pressed: that capture and all the later ones have no effect. *)
Theorem main_loop_stops_at_break
    {W : Type} (player : Command W) (lines_pos_x : float * float)
    (before after : list capture) (c : capture) (w : W)
    (Hc : breaks c = true) :
  main_loop player lines_pos_x (before ++ c :: after) w
  = main_loop player lines_pos_x before w.
Proof.
  revert w. induction before as [| b rest IH]; intros w; cbn [app main_loop].
  - unfold breaks in Hc.
    destruct (negb (success c)); [reflexivity |].
    destruct (q_pressed c); [reflexivity | discriminate].
  - destruct (negb (success b)); [reflexivity |].
    destruct (q_pressed b); [reflexivity |].
    unfold bind. destruct (turn player lines_pos_x b w) as [[[] | e] w'].
    + apply IH.
    + reflexivity.
Qed.

Lemma main_loop_stops_at_break_witness :
  breaks q_capture = true /\
  main_loop Recorder lines_640
    ([quiet_capture] ++ q_capture :: [short_hand_capture]) []
  = main_loop Recorder lines_640 [quiet_capture] [].
Proof.
  split; [reflexivity |].
  apply (main_loop_stops_at_break Recorder lines_640 [quiet_capture]
           [short_hand_capture] q_capture []).
  reflexivity.
Defined.

(** Nothing catches an exception in the loop: once a turn has raised, the
    run is over and the captures that follow have no effect. *)
Theorem main_loop_raise_ends_run
    {W : Type} (player : Command W) (lines_pos_x : float * float)
    (before after : list capture) (e : exn) (w : W)
    (He : fst (main_loop player lines_pos_x before w) = Raise e) :
  main_loop player lines_pos_x (before ++ after) w
  = main_loop player lines_pos_x before w.
Proof.
  revert w He. induction before as [| b rest IH]; intros w He.
  - discriminate He.
  - cbn [app main_loop] in *.
    destruct (negb (success b)); [discriminate He |].
    destruct (q_pressed b); [discriminate He |].
    unfold bind in *.
    destruct (turn player lines_pos_x b w) as [[[] | e'] w'].
    + apply IH. exact He.
    + reflexivity.
Qed.

Lemma main_loop_raise_ends_run_witness :
  fst (main_loop Recorder lines_640 [short_hand_capture] [])
    = Raise IndexError /\
  main_loop Recorder lines_640 ([short_hand_capture] ++ [quiet_capture]) []
  = main_loop Recorder lines_640 [short_hand_capture] [].
Proof.
  split; [reflexivity |].
  apply (main_loop_raise_ends_run Recorder lines_640 [short_hand_capture]
           [quiet_capture] IndexError []).
  reflexivity.
Defined.

(** When several hands are detected, a turn evaluates the landmarks of the
    first hand under the label of the last hand. *)
Theorem turn_first_landmarks_last_label
    {W : Type} (player : Command W) (lines_pos_x : float * float)
    (c : capture)
    (first_hand : list NormalizedLandmark)
    (other_hands : list (list NormalizedLandmark))
    (earlier : list (list Classification)) (last : list Classification)
    (r : option string) (l : string) (o_position_list : list position)
    (w : W)
    (Hl : multi_hand_landmarks c = Some (first_hand :: other_hands))
    (Hh : multi_handedness c = Some (earlier ++ [last]))
    (Hearlier : hand_type (Some earlier) = Ok r)
    (Hlast : classification_label last = Ok l)
    (Hpos : finger_position (Some [first_hand]) (shape c)
            = Ok o_position_list) :
  turn player lines_pos_x c w
  = frame player o_position_list lines_pos_x (Some l) w.
Proof.
  unfold turn. rewrite Hl, Hh.
  assert (E : hand_type (Some (earlier ++ [last])) = Ok (Some l)).
  { assert (E1 : hand_type (Some (earlier ++ [last]))
                 = hand_type_loop (earlier ++ [last]) None)
      by (unfold hand_type; destruct earlier; reflexivity).
    assert (E2 : hand_type (Some earlier) = hand_type_loop earlier None)
      by (unfold hand_type; destruct earlier; reflexivity).
    rewrite E1, hand_type_loop_snoc, <- E2, Hearlier. cbn [rbind].
    rewrite Hlast. reflexivity. }
  rewrite E.
  change (finger_position (Some (first_hand :: other_hands)) (shape c))
    with (finger_position (Some [first_hand]) (shape c)).
  rewrite Hpos. reflexivity.
Qed.

Lemma turn_first_landmarks_last_label_witness :
  multi_hand_landmarks two_hands_capture
    = Some (hand_landmarks 21 :: [hand_landmarks 21]) /\
  multi_handedness two_hands_capture
    = Some ([one_hand "Left"] ++ [one_hand "Right"]) /\
  hand_type (Some [one_hand "Left"]) = Ok (Some "Left") /\
  classification_label (one_hand "Right") = Ok "Right" /\
  finger_position (Some [hand_landmarks 21]) (shape two_hands_capture)
    = Ok (hand_of 320 (repeat 240 21)) /\
  turn Recorder lines_640 two_hands_capture []
  = frame Recorder (hand_of 320 (repeat 240 21)) lines_640 (Some "Right") [].
Proof.
  split; [reflexivity |]. split; [reflexivity |]. split; [reflexivity |].
  split; [reflexivity |]. split; [reflexivity |].
  exact (turn_first_landmarks_last_label Recorder lines_640 two_hands_capture
           (hand_landmarks 21) [hand_landmarks 21]
           [one_hand "Left"] (one_hand "Right") (Some "Left") "Right"
           (hand_of 320 (repeat 240 21)) []
           eq_refl eq_refl eq_refl eq_refl eq_refl).
Defined.

(** ** The lines, for every width *)

Lemma binary_round_exact (s : bool) (p : positive) :
  Zpos p < 2 ^ 53 ->
  binary_round prec emax s p 0 = canon s (Zpos p) 0.
Proof.
  intros Hn. unfold binary_round.
  destruct (Zdigits2_bounds (Zpos p) ltac:(lia)) as (Hd & Hlo & Hhi).
  cbn [Zdigits2] in Hd, Hlo, Hhi.
  assert (Hd53 : Zpos (digits2_pos p) <= 53).
  { assert (Zpos (digits2_pos p) - 1 < 53); [| lia].
    apply (Z.pow_lt_mono_r_iff 2); lia. }
  replace (fexp prec emax (Zpos (digits2_pos p) + 0))
    with (Zpos (digits2_pos p) - 53)
    by (unfold fexp, emin, prec, emax; lia).
  unfold shl_align.
  destruct (Zpos (digits2_pos p) - 53 - 0) as [| d | d] eqn:Ed; try lia.
  - replace (Zpos p) with (Zpos p * 2 ^ 0) at 1
      by (rewrite Z.mul_1_r; reflexivity).
    rewrite binary_round_aux_exact; [reflexivity | lia | lia | | lia].
    rewrite Z.mul_1_r. replace 52 with (Zpos (digits2_pos p) - 1) by lia. lia.
  - rewrite Zpos_iter_xO.
    rewrite binary_round_aux_exact; try lia.
    + f_equal. lia.
    + replace 52 with (Zpos (digits2_pos p) - 1 + Zpos d) by lia.
      rewrite Z.pow_add_r by lia.
      assert (0 < 2 ^ Zpos d) by (apply Z.pow_pos_nonneg; lia). nia.
Qed.

(** [float(n)] for a non-zero [n] of either sign. *)
Lemma of_int_exact_signed (n : Z) :
  n <> 0 -> Z.abs n < 2 ^ 53 ->
  of_int n = Ok (canon (n <? 0) (Z.abs n) 0).
Proof.
  intros Hn Hb. unfold of_int.
  destruct n as [| p | p]; [lia | |]; cbn [binary_normalize Z.abs Z.ltb Z.compare];
    rewrite binary_round_exact by exact Hb; reflexivity.
Qed.

Lemma line_pos_nonzero (user32 : Z -> Z) :
  GetSystemMetrics user32 0 <> 0 -> line_pos user32 = Ok lines_640.
Proof.
  intros Hw.
  pose proof (GetSystemMetrics_range user32 0) as Hr.
  unfold line_pos, screen_first_line_x, screen_second_line_x, int_truediv,
    mul_int, truediv_int, mul, truediv.
  cbv zeta. cbn [fst Z.eqb].
  set (w := GetSystemMetrics user32 0) in *.
  set (s := w <? 0). set (a := Z.abs w).
  assert (Ha : 0 < a <= 2 ^ 31) by (unfold a; lia).
  assert (S555 : (w * 555 <? 0) = s)
    by (unfold s; destruct (Z.ltb_spec (w * 555) 0), (Z.ltb_spec w 0); lia).
  assert (S1365 : (w * 1365 <? 0) = s)
    by (unfold s; destruct (Z.ltb_spec (w * 1365) 0), (Z.ltb_spec w 0); lia).
  assert (A555 : Z.abs (w * 555) = a * 555) by (unfold a; lia).
  assert (A1365 : Z.abs (w * 1365) = a * 1365) by (unfold a; lia).
  rewrite (of_int_exact_signed (w * 555)), (of_int_exact_signed (w * 1365)),
    (of_int_exact 1920), (of_int_exact 640), (of_int_exact_signed w) by lia.
  rewrite S555, S1365, A555, A1365. fold s. fold a. cbn [rbind].
  rewrite (SFdiv_exact s false (a * 555) 1920 (a * 37) 7 0 0) by lia.
  rewrite (SFdiv_exact s false (a * 1365) 1920 (a * 91) 7 0 0) by lia.
  rewrite (SFmul_exact (xorb s false) false (a * 37) 640 (0 - 0 - 7) 0) by lia.
  rewrite (SFmul_exact (xorb s false) false (a * 91) 640 (0 - 0 - 7) 0) by lia.
  replace (is_zero (canon s a 0)) with false by reflexivity.
  cbn [rbind].
  rewrite (SFdiv_exact (xorb (xorb s false) false) s (a * 37 * 640) a 23680 0
             (0 - 0 - 7 + 0) 0) by lia.
  rewrite (SFdiv_exact (xorb (xorb s false) false) s (a * 91 * 640) a 58240 0
             (0 - 0 - 7 + 0) 0) by lia.
  destruct s; reflexivity.
Qed.

Lemma line_pos_zero (user32 : Z -> Z) :
  GetSystemMetrics user32 0 = 0 -> line_pos user32 = Raise ZeroDivisionError.
Proof.
  intros Hw. unfold line_pos. cbv zeta. rewrite Hw. reflexivity.
Qed.

(** Whatever the screen is, [line_pos] either returns the doubles 185.0 and
    455.0 or raises [ZeroDivisionError]; it raises exactly when the width is
    0, and returns the same pair for a negative width. A run of [main] with
    width 0 stops there, before the first capture; every other run uses the
    lines 185.0 and 455.0. *)
Theorem line_pos_every_width
    {W : Type} (player : Command W) (user32 : Z -> Z)
    (stream : list capture) (w : W) :
  line_pos user32 =
    (if GetSystemMetrics user32 0 =? 0 then Raise ZeroDivisionError
     else Ok lines_640) /\
  main player user32 stream w =
    (if GetSystemMetrics user32 0 =? 0 then (Raise ZeroDivisionError, w)
     else main_loop player lines_640 stream w).
Proof.
  unfold main, bind, lift.
  destruct (Z.eqb_spec (GetSystemMetrics user32 0) 0) as [H0 | Hn].
  - rewrite (line_pos_zero user32 H0). split; reflexivity.
  - rewrite (line_pos_nonzero user32 Hn). split; reflexivity.
Qed.

(** ** Pixels of a landmark inside the image *)

Lemma shr_1_m (mrs : shr_record) :
  0 <= shr_m mrs -> shr_m (shr_1 mrs) = shr_m mrs / 2.
Proof.
  destruct mrs as [m r s]. cbn [shr_m]. intros Hm.
  destruct m as [| [p | p |] | p]; cbn [shr_1 shr_m]; try lia.
  - reflexivity.
  - change (Zpos p~1) with (2 * Zpos p + 1).
    apply Z.div_unique with (r := 1); lia.
  - change (Zpos p~0) with (2 * Zpos p).
    apply Z.div_unique with (r := 0); lia.
  - reflexivity.
Qed.

Lemma iter_pos_shr_1_m (p : positive) (mrs : shr_record) :
  0 <= shr_m mrs ->
  shr_m (iter_pos shr_1 p mrs) = shr_m mrs / 2 ^ Zpos p.
Proof.
  revert mrs. induction p as [p IH | p IH |]; intros mrs Hm; cbn [iter_pos].
  - assert (H1 : 0 <= shr_m (shr_1 mrs))
      by (rewrite shr_1_m by lia; apply Z.div_pos; lia).
    assert (H2 : 0 <= shr_m (iter_pos shr_1 p (shr_1 mrs)))
      by (rewrite IH by lia; apply Z.div_pos; [lia | apply Z.pow_pos_nonneg; lia]).
    rewrite IH, IH, shr_1_m by lia.
    assert (0 < 2 ^ Zpos p) by (apply Z.pow_pos_nonneg; lia).
    rewrite !Z.div_div by lia.
    f_equal. replace (Zpos p~1) with (1 + Zpos p + Zpos p) by lia.
    rewrite !Z.pow_add_r by lia. change (2 ^ 1) with 2. ring.
  - assert (H2 : 0 <= shr_m (iter_pos shr_1 p mrs))
      by (rewrite IH by lia; apply Z.div_pos; [lia | apply Z.pow_pos_nonneg; lia]).
    rewrite IH, IH by lia.
    assert (0 < 2 ^ Zpos p) by (apply Z.pow_pos_nonneg; lia).
    rewrite !Z.div_div by lia.
    f_equal. replace (Zpos p~0) with (Zpos p + Zpos p) by lia.
    rewrite !Z.pow_add_r by lia. ring.
  - apply shr_1_m. exact Hm.
Qed.

(** [shr] divides the mantissa and adds to the exponent. *)
Lemma shr_m_div (mrs : shr_record) (e n : Z) :
  0 <= shr_m mrs ->
  exists k : Z,
    0 <= k /\ k = Z.max n 0 /\
    shr_m (fst (shr mrs e n)) = shr_m mrs / 2 ^ k /\
    snd (shr mrs e n) = e + k.
Proof.
  intros Hm. exists (Z.max n 0).
  destruct n as [| p | p]; cbn [shr fst snd].
  - repeat split; try lia. rewrite Z.div_1_r. reflexivity.
  - repeat split; try lia. apply iter_pos_shr_1_m. exact Hm.
  - repeat split; try lia. rewrite Z.div_1_r. reflexivity.
Qed.

Lemma scaled_le_shift (m e w n : Z) :
  0 <= m -> 0 <= w -> 0 <= n ->
  scaled_le m e w -> scaled_le (m / 2 ^ n) (e + n) w.
Proof.
  unfold scaled_le. intros Hm Hw Hn H.
  assert (Pn : 0 < 2 ^ n) by (apply Z.pow_pos_nonneg; lia).
  assert (Hq : m / 2 ^ n * 2 ^ n <= m)
    by (rewrite Z.mul_comm; apply Z.mul_div_le; lia).
  assert (Hq0 : 0 <= m / 2 ^ n) by (apply Z.div_pos; lia).
  destruct (Z.le_gt_cases 0 e) as [He | He].
  - rewrite Z.max_l in H by lia. rewrite (Z.max_r (- e) 0) in H by lia.
    rewrite Z.max_l by lia. rewrite (Z.max_r (- (e + n)) 0) by lia.
    rewrite Z.pow_add_r by lia.
    assert (0 < 2 ^ e) by (apply Z.pow_pos_nonneg; lia).
    change (2 ^ 0) with 1 in *. nia.
  - rewrite Z.max_r in H by lia. rewrite (Z.max_l (- e) 0) in H by lia.
    change (2 ^ 0) with 1 in H. rewrite Z.mul_1_r in H.
    destruct (Z.le_gt_cases (e + n) 0) as [Hen | Hen].
    + rewrite Z.max_r by lia. rewrite (Z.max_l (- (e + n)) 0) by lia.
      change (2 ^ 0) with 1. rewrite Z.mul_1_r.
      assert (P : 0 < 2 ^ (- (e + n))) by (apply Z.pow_pos_nonneg; lia).
      replace (- e) with (- (e + n) + n) in H by lia.
      rewrite Z.pow_add_r in H by lia.
      apply Z.div_le_upper_bound; [lia |]. nia.
    + rewrite Z.max_l by lia. rewrite (Z.max_r (- (e + n)) 0) by lia.
      change (2 ^ 0) with 1. rewrite Z.mul_1_r.
      assert (P : 0 < 2 ^ (- e)) by (apply Z.pow_pos_nonneg; lia).
      assert (P' : 0 < 2 ^ (e + n)) by (apply Z.pow_pos_nonneg; lia).
      assert (En : 2 ^ n = 2 ^ (e + n) * 2 ^ (- e))
        by (rewrite <- Z.pow_add_r by lia; f_equal; lia).
      apply (Z.mul_le_mono_pos_r _ _ (2 ^ (- e))); [lia |].
      rewrite <- Z.mul_assoc, <- En. lia.
Qed.

Lemma scaled_le_int (m e w : Z) :
  0 <= m -> scaled_le m e w ->
  0 <= (if 0 <=? e then m * 2 ^ e else m / 2 ^ (- e)) <= w.
Proof.
  unfold scaled_le. intros Hm H.
  destruct (Z.leb_spec 0 e) as [He | He].
  - rewrite Z.max_l in H by lia. rewrite (Z.max_r (- e) 0) in H by lia.
    change (2 ^ 0) with 1 in H.
    assert (0 < 2 ^ e) by (apply Z.pow_pos_nonneg; lia). nia.
  - rewrite Z.max_r in H by lia. rewrite (Z.max_l (- e) 0) in H by lia.
    change (2 ^ 0) with 1 in H.
    assert (0 < 2 ^ (- e)) by (apply Z.pow_pos_nonneg; lia).
    split; [apply Z.div_pos; lia |].
    apply Z.div_le_upper_bound; [lia |]. nia.
Qed.

Lemma round_nearest_even_bounds (m : Z) (l : location) :
  m <= round_nearest_even m l <= m + 1.
Proof.
  destruct l as [| []]; cbn [round_nearest_even]; try lia.
  destruct (Z.even m); lia.
Qed.

(** The first shift of a rounding and the rounding itself, against a bound
    that is a multiple of the shift. *)
Lemma shr_round_le (M E n K : Z) :
  0 <= M -> 0 <= K ->
  M <= K * 2 ^ Z.max n 0 ->
  let mrs := fst (shr {| shr_m := M; shr_r := false; shr_s := false |} E n) in
  0 <= round_nearest_even (shr_m mrs) (loc_of_shr_record mrs) <= K.
Proof.
  intros HM HK Hle mrs.
  set (k := Z.max n 0) in *.
  assert (Pk : 0 < 2 ^ k) by (apply Z.pow_pos_nonneg; lia).
  destruct (shr_m_div {| shr_m := M; shr_r := false; shr_s := false |} E n HM)
    as (k' & _ & Ek & Hm & _).
  fold k in Ek. subst k'. cbn [shr_m] in Hm. fold mrs in Hm.
  pose proof (round_nearest_even_bounds (shr_m mrs) (loc_of_shr_record mrs)) as Hr.
  assert (Hq0 : 0 <= M / 2 ^ k) by (apply Z.div_pos; lia).
  assert (HqK : M / 2 ^ k <= K) by (apply Z.div_le_upper_bound; lia).
  destruct (Z.eq_dec (M / 2 ^ k) K) as [Heq | Hne]; [| lia].
  (* the quotient is the bound itself: the shift was exact *)
  assert (HM' : M = K * 2 ^ k).
  { pose proof (Z.mul_div_le M (2 ^ k) Pk). nia. }
  assert (Emrs : mrs = {| shr_m := K; shr_r := false; shr_s := false |}).
  { unfold mrs. rewrite HM'.
    destruct n as [| p | p].
    - cbn [shr fst]. unfold k. cbn. rewrite Z.mul_1_r. reflexivity.
    - unfold k. rewrite Z.max_l by lia. rewrite shr_exact by lia. reflexivity.
    - cbn [shr fst]. unfold k. rewrite Z.max_r by lia.
      rewrite Z.mul_1_r. reflexivity. }
  rewrite Emrs. cbn [shr_m loc_of_shr_record round_nearest_even]. lia.
Qed.

Lemma binary_round_aux_below (M E w : Z) :
  0 < M -> 0 < w < 2 ^ 53 -> E <= 0 -> M <= w * 2 ^ (- E) ->
  binary_round_aux prec emax false M E loc_Exact = S754_zero false \/
  exists (m : positive) (e : Z),
    binary_round_aux prec emax false M E loc_Exact = S754_finite false m e /\
    scaled_le (Zpos m) e w.
Proof.
  intros HM Hw HE Hle.
  unfold binary_round_aux, shr_fexp. cbn [shr_record_of_loc].
  set (n1 := fexp prec emax (Zdigits2 M + E) - E).
  (* the product has at most 53 - E digits *)
  destruct (Zdigits2_bounds M HM) as (HD & Hlo & _).
  assert (HDE : Zdigits2 M + E <= 53).
  { assert (Zdigits2 M - 1 < 53 - E); [| lia].
    apply (Z.pow_lt_mono_r_iff 2); [lia | lia |].
    assert (0 < 2 ^ (- E)) by (apply Z.pow_pos_nonneg; lia).
    replace (53 - E) with (53 + - E) by lia. rewrite Z.pow_add_r by lia. nia. }
  destruct (shr_m_div {| shr_m := M; shr_r := false; shr_s := false |} E n1
              ltac:(cbn; lia)) as (k1 & Hk1 & Ek1 & _ & He1).
  pose proof (shr_round_le M E n1 (w * 2 ^ (- (E + k1))) ltac:(lia)) as Hround.
  destruct (shr {| shr_m := M; shr_r := false; shr_s := false |} E n1)
    as [mrs' e'] eqn:S1.
  cbn [fst snd] in He1, Hround. subst e'.
  assert (He' : E + k1 <= 0)
    by (unfold n1, fexp, emin, prec, emax in *; lia).
  assert (P' : 0 < 2 ^ (- (E + k1))) by (apply Z.pow_pos_nonneg; lia).
  assert (Pk : 0 < 2 ^ k1) by (apply Z.pow_pos_nonneg; lia).
  assert (Hround' : 0 <= round_nearest_even (shr_m mrs') (loc_of_shr_record mrs')
                    <= w * 2 ^ (- (E + k1))).
  { apply Hround; [nia |].
    rewrite <- Ek1, <- Z.mul_assoc, <- Z.pow_add_r by lia.
    replace (- (E + k1) + k1) with (- E) by lia. exact Hle. }
  clear Hround.
  set (M2 := round_nearest_even (shr_m mrs') (loc_of_shr_record mrs')) in *.
  assert (S2 : scaled_le M2 (E + k1) w).
  { unfold scaled_le. rewrite Z.max_r by lia. rewrite Z.max_l by lia.
    change (2 ^ 0) with 1. lia. }
  set (n2 := fexp prec emax (Zdigits2 M2 + (E + k1)) - (E + k1)).
  destruct (shr_m_div {| shr_m := M2; shr_r := false; shr_s := false |}
              (E + k1) n2 ltac:(cbn; lia)) as (k2 & Hk2 & _ & Hm3 & He3).
  destruct (shr {| shr_m := M2; shr_r := false; shr_s := false |} (E + k1) n2)
    as [mrs'' e''] eqn:S3.
  cbn [fst snd shr_m] in Hm3, He3. subst e''.
  pose proof (scaled_le_shift M2 (E + k1) w k2 ltac:(lia) ltac:(lia) Hk2 S2)
    as S4.
  rewrite <- Hm3 in S4.
  assert (H3 : 0 <= shr_m mrs'')
    by (rewrite Hm3; apply Z.div_pos; [lia | apply Z.pow_pos_nonneg; lia]).
  destruct (shr_m mrs'') as [| m | m]; [left; reflexivity | | lia].
  destruct (Z.leb_spec (E + k1 + k2) (emax - prec)) as [Hfin | Hinf].
  - right. exists m, (E + k1 + k2). split; [reflexivity | exact S4].
  - exfalso. unfold scaled_le, emax, prec in *.
    rewrite Z.max_l in S4 by lia. rewrite (Z.max_r _ 0) in S4 by lia.
    change (2 ^ 0) with 1 in S4.
    assert (2 ^ 53 <= 2 ^ (E + k1 + k2)) by (apply Z.pow_le_mono_r; lia).
    nia.
Qed.

(** [int(x * n)] for a float [x] between 0 and 1 and a positive int [n] is
    between 0 and [n]. *)
Lemma int_mul_unit (x : float) (n : Z) :
  in_unit x = true -> 0 < n < 2 ^ 53 ->
  exists v : Z,
    (p <- mul_int x n ;; int_of_float p)%result = Ok v /\ 0 <= v <= n.
Proof.
  intros Hx Hn. unfold mul_int, mul.
  rewrite (of_int_exact n Hn). cbn [rbind].
  destruct (canon_mantissa_bounds false n 0 Hn) as (my & -> & My & By & Ky).
  set (k := 53 - Zdigits2 n) in *.
  destruct x as [s | s | | [|] mx ex]; try discriminate Hx.
  - exists 0. split; [reflexivity | lia].
  - cbn [in_unit] in Hx. apply andb_true_iff in Hx as [Hex Hmx].
    apply Z.leb_le in Hex, Hmx.
    cbn [SFmul xorb]. rewrite Pos2Z.inj_mul.
    assert (Pk : 0 < 2 ^ k) by (apply Z.pow_pos_nonneg; lia).
    assert (Px : 0 < 2 ^ (- ex)) by (apply Z.pow_pos_nonneg; lia).
    destruct (binary_round_aux_below (Zpos mx * Zpos my) (ex + (0 - k)) n)
      as [-> | (m & e & -> & S)]; try lia.
    + replace (- (ex + (0 - k))) with (- ex + k) by lia.
      rewrite Z.pow_add_r, My by lia. nia.
    + exists 0. split; [reflexivity | lia].
    + cbn [int_of_float cond_Zopp]. eexists. split; [reflexivity |].
      apply scaled_le_int; [lia | exact S].
Qed.

Lemma finger_position_loop_inside (landmark : list NormalizedLandmark)
      (i height width : Z) (acc : list position) :
  Forall (fun l => in_unit (landmark_x l) = true
                   /\ in_unit (landmark_y l) = true) landmark ->
  0 < height < 2 ^ 53 -> 0 < width < 2 ^ 53 ->
  Forall (fun p => 0 <= coordinate_x p <= width
                   /\ 0 <= coordinate_y p <= height) acc ->
  exists pos : list position,
    finger_position_loop landmark i (height, width) acc = Ok pos /\
    Forall (fun p => 0 <= coordinate_x p <= width
                     /\ 0 <= coordinate_y p <= height) pos.
Proof.
  intros Hlm Hh Hw. revert i acc.
  induction Hlm as [| lm rest [Hx Hy] _ IH]; intros i acc Hacc.
  - exists acc. split; [reflexivity | exact Hacc].
  - cbn [finger_position_loop fst snd].
    destruct (int_mul_unit (landmark_x lm) width Hx Hw) as (cx & Ex & Bx).
    destruct (int_mul_unit (landmark_y lm) height Hy Hh) as (cy & Ey & By).
    destruct (mul_int (landmark_x lm) width) as [px | e]; [| discriminate Ex].
    cbn [rbind] in Ex |- *. rewrite Ex. cbn [rbind].
    destruct (mul_int (landmark_y lm) height) as [py | e]; [| discriminate Ey].
    cbn [rbind] in Ey |- *. rewrite Ey. cbn [rbind].
    apply IH. apply Forall_app. split; [exact Hacc |].
    constructor; [| constructor]. cbn [coordinate_x coordinate_y]. lia.
Qed.

(** When every landmark of the first hand has its [x] and [y] between 0 and
    1 and the image is not empty, [finger_position] raises nothing and every
    entry has its [x] between 0 and the width and its [y] between 0 and the
    height, both ends included. *)
Theorem finger_position_inside_image
    (my_hand : list NormalizedLandmark)
    (others : list (list NormalizedLandmark))
    (height width : Z)
    (Hhand : Forall (fun l => in_unit (landmark_x l) = true
                              /\ in_unit (landmark_y l) = true) my_hand)
    (Hheight : 0 < height < 2 ^ 53)
    (Hwidth : 0 < width < 2 ^ 53) :
  exists o_position_list : list position,
    finger_position (Some (my_hand :: others)) (height, width)
      = Ok o_position_list /\
    Forall (fun p => 0 <= coordinate_x p <= width
                     /\ 0 <= coordinate_y p <= height) o_position_list.
Proof.
  unfold finger_position.
  change (getitem (my_hand :: others) 0)
    with (Ok (A := list NormalizedLandmark) my_hand).
  cbn [rbind].
  apply finger_position_loop_inside; try assumption. constructor.
Qed.

Lemma finger_position_inside_image_witness :
  Forall (fun l => in_unit (landmark_x l) = true
                   /\ in_unit (landmark_y l) = true) (hand_landmarks 21) /\
  0 < 480 < 2 ^ 53 /\ 0 < 640 < 2 ^ 53 /\
  exists o_position_list : list position,
    finger_position (Some [hand_landmarks 21]) (480, 640)
      = Ok o_position_list /\
    Forall (fun p => 0 <= coordinate_x p <= 640
                     /\ 0 <= coordinate_y p <= 480) o_position_list.
Proof.
  assert (H : Forall (fun l => in_unit (landmark_x l) = true
                               /\ in_unit (landmark_y l) = true)
                     (hand_landmarks 21)).
  { apply Forall_forall. intros l Hl. apply repeat_spec in Hl. subst l.
    split; reflexivity. }
  split; [exact H |]. split; [lia |]. split; [lia |].
  apply (finger_position_inside_image (hand_landmarks 21) [] 480 640 H); lia.
Defined.

(** ** What a frame looks at *)

(** For lists of at least 21 landmarks the frame is fixed by the four
    comparisons of the count and the [x] of landmarks 8 and 9. *)
Lemma frame_long_run {W : Type} (player : Command W) (pos : list position)
      (lines : float * float) (lbl : option string) (w : W) :
  (21 <= List.length pos)%nat ->
  frame player pos lines lbl w =
    (Ok tt,
     perform_all player
       (match (b2n (above (landmark_at pos 8) (landmark_at pos 6))
               + b2n (above (landmark_at pos 12) (landmark_at pos 10))
               + b2n (above (landmark_at pos 16) (landmark_at pos 14))
               + b2n (above (landmark_at pos 20) (landmark_at pos 18)))%nat
        with
        | 0%nat =>
            if centre_zone lines (coordinate_x (landmark_at pos 9))
            then [PlayPause] else []
        | 1%nat =>
            if above (landmark_at pos 8) (landmark_at pos 6) then
              (if left_zone lines (coordinate_x (landmark_at pos 8))
                  && label_eq lbl "Left"
               then [SeekBackward] else [])
              ++ (if right_zone lines (coordinate_x (landmark_at pos 8))
                     && label_eq lbl "Right"
                  then [SeekForward] else [])
            else []
        | 2%nat =>
            if above (landmark_at pos 12) (landmark_at pos 10)
               && above (landmark_at pos 8) (landmark_at pos 6) then
              (if left_zone lines (coordinate_x (landmark_at pos 9))
                  && label_eq lbl "Left"
               then [VolumeDown] else [])
              ++ (if right_zone lines (coordinate_x (landmark_at pos 9))
                     && label_eq lbl "Right"
                  then [VolumeUp] else [])
            else []
        | _ => []
        end) w).
Proof.
  intros Hl.
  pose proof (total_fingers_long _ Hl) as Hn.
  set (n := (_ + _ + _ + _)%nat) in *.
  rewrite (frame_run player _ lines lbl n w Hn).
  unfold landmark_at in *.
  set (d := {| index := 0; coordinate_x := 0; coordinate_y := 0 |}) in *.
  pose proof (getitem_nth pos 6 d ltac:(lia)) as H6.
  pose proof (getitem_nth pos 8 d ltac:(lia)) as H8.
  pose proof (getitem_nth pos 9 d ltac:(lia)) as H9.
  pose proof (getitem_nth pos 10 d ltac:(lia)) as H10.
  pose proof (getitem_nth pos 12 d ltac:(lia)) as H12.
  destruct n as [| [| [| n']]].
  - apply (total_fingers_0_run player _ lines lbl _ w H9).
  - apply (total_fingers_1_run player _ lines lbl _ _ w H6 H8).
  - apply (total_fingers_2_run player _ lines lbl _ _ _ _ _ w
             H6 H8 H9 H10 H12).
  - reflexivity.
Qed.

(** Two lists of at least 21 landmarks that agree on the landmarks 6, 8, 9,
    10, 12, 14, 16, 18 and 20 make the same frame: the wrist, the thumb and
    the other joints are never looked at. *)
Theorem frame_reads_nine_landmarks
    {W : Type} (player : Command W) (pos1 pos2 : list position)
    (lines_pos_x : float * float) (label : option string) (w : W)
    (H1 : (21 <= List.length pos1)%nat)
    (H2 : (21 <= List.length pos2)%nat)
    (Hsame : Forall (fun i => landmark_at pos1 i = landmark_at pos2 i)
                    [6; 8; 9; 10; 12; 14; 16; 18; 20]%nat) :
  frame player pos1 lines_pos_x label w
  = frame player pos2 lines_pos_x label w.
Proof.
  rewrite (frame_long_run player pos1 lines_pos_x label w H1).
  rewrite (frame_long_run player pos2 lines_pos_x label w H2).
  repeat match goal with
         | H : Forall _ (_ :: _) |- _ => inversion H; subst; clear H
         end.
  repeat match goal with
         | H : landmark_at pos1 _ = landmark_at pos2 _ |- _ => rewrite H; clear H
         end.
  reflexivity.
Qed.

Lemma frame_reads_nine_landmarks_witness :
  (21 <= List.length (hand_of 100 ys_index))%nat /\
  (21 <= List.length (hand_of 100 ys_hook))%nat /\
  frame Recorder (hand_of 100 ys_index) lines_640 (Some "Left") []
  = frame Recorder (hand_of 100 ys_hook) lines_640 (Some "Left") [].
Proof.
  split; [simpl; lia |]. split; [simpl; lia |].
  apply (frame_reads_nine_landmarks Recorder (hand_of 100 ys_index)
           (hand_of 100 ys_hook) lines_640 (Some "Left") []).
  - simpl. lia.
  - simpl. lia.
  - repeat constructor.
Defined.

Lemma landmark_at_map (f : position -> position) (pos : list position)
      (i : nat) :
  (i < List.length pos)%nat ->
  landmark_at (map f pos) i = f (landmark_at pos i).
Proof.
  intros Hi. unfold landmark_at.
  rewrite (nth_indep (map f pos)
             {| index := 0; coordinate_x := 0; coordinate_y := 0 |}
             (f {| index := 0; coordinate_x := 0; coordinate_y := 0 |}))
    by (rewrite length_map; exact Hi).
  apply map_nth.
Qed.

(** Moving the whole hand up or down in the image changes nothing: the
    frame on the moved hand is the frame on the hand. *)
Theorem frame_vertical_shift
    {W : Type} (player : Command W) (o_position_list : list position)
    (d : Z) (lines_pos_x : float * float) (label : option string) (w : W) :
  frame player (map (shift_down d) o_position_list) lines_pos_x label w
  = frame player o_position_list lines_pos_x label w.
Proof.
  destruct (Nat.leb_spec 21 (List.length o_position_list)) as [Hl | Hs].
  - rewrite (frame_long_run player (map (shift_down d) o_position_list)
               lines_pos_x label w) by (rewrite length_map; exact Hl).
    rewrite (frame_long_run player o_position_list lines_pos_x label w Hl).
    rewrite !landmark_at_map by lia.
    assert (Habove : forall p q,
               above (shift_down d p) (shift_down d q) = above p q).
    { intros p q. unfold above, shift_down. cbn [coordinate_y].
      destruct (Z.ltb_spec (coordinate_y p + d) (coordinate_y q + d)),
               (Z.ltb_spec (coordinate_y p) (coordinate_y q));
        try reflexivity; lia. }
    rewrite !Habove. reflexivity.
  - destruct o_position_list as [| p rest]; [reflexivity |].
    rewrite !frame_short; [reflexivity | simpl in *; lia |].
    rewrite length_map. simpl in *. lia.
Qed.

Lemma mirror_label_eq (lbl : option string) :
  label_eq (mirror_label lbl) "Left" = label_eq lbl "Right" /\
  label_eq (mirror_label lbl) "Right" = label_eq lbl "Left".
Proof.
  destruct lbl as [l |]; [| split; reflexivity]. cbn [mirror_label label_eq].
  destruct (String.eqb_spec l "Left") as [-> | HL]; [split; reflexivity |].
  destruct (String.eqb_spec l "Right") as [-> | HR]; [split; reflexivity |].
  cbn [label_eq].
  destruct (String.eqb_spec l "Left"), (String.eqb_spec l "Right");
    try contradiction; split; reflexivity.
Qed.

Lemma mirror_zones (x : Z) :
  left_zone lines_640 (640 - x) = right_zone lines_640 x /\
  right_zone lines_640 (640 - x) = left_zone lines_640 x /\
  centre_zone lines_640 (640 - x) = centre_zone lines_640 x.
Proof.
  unfold left_zone, centre_zone, right_zone, int_lt, int_gt, int_compare,
    lines_640, cond_Zopp.
  cbn [fst snd Z.leb Z.compare Z.opp].
  change (2 ^ 45) with 35184372088832. change (2 ^ 44) with 17592186044416.
  destruct (Z.compare_spec (x * 35184372088832) 6509108836433920);
    destruct (Z.compare_spec (x * 17592186044416) 8004444650209280);
    destruct (Z.compare_spec ((640 - x) * 35184372088832) 6509108836433920);
    destruct (Z.compare_spec ((640 - x) * 17592186044416) 8004444650209280);
    repeat split; try reflexivity; lia.
Qed.

(** With the lines 185.0 and 455.0 the gestures are mirror images of each
    other: the hand reflected about the middle of the 640 columns, under
    the opposite label, calls the opposite method (forward for backward,
    volume up for volume down, play/pause for itself). *)
Theorem frame_mirror
    (o_position_list : list position) (label : option string) :
  decisions (map mirror o_position_list) lines_640 (mirror_label label)
  = (fst (decisions o_position_list lines_640 label),
     map mirror_operation (snd (decisions o_position_list lines_640 label))).
Proof.
  unfold decisions.
  destruct (Nat.leb_spec 21 (List.length o_position_list)) as [Hl | Hs].
  - rewrite (frame_long_run Recorder (map mirror o_position_list) lines_640
               (mirror_label label) []) by (rewrite length_map; exact Hl).
    rewrite (frame_long_run Recorder o_position_list lines_640 label [] Hl).
    rewrite !landmark_at_map by lia.
    assert (Habove : forall p q, above (mirror p) (mirror q) = above p q)
      by reflexivity.
    rewrite !Habove. cbn [fst snd]. rewrite !perform_all_Recorder.
    cbn [app mirror coordinate_x].
    destruct (mirror_label_eq label) as [-> ->].
    destruct (mirror_zones (coordinate_x (landmark_at o_position_list 8)))
      as (-> & -> & _).
    destruct (mirror_zones (coordinate_x (landmark_at o_position_list 9)))
      as (-> & -> & ->).
    pose proof (label_not_both label) as Hlr.
    f_equal.
    destruct (b2n _ + b2n _ + b2n _ + b2n _)%nat as [| [| [| n']]].
    + destruct (centre_zone _ _); reflexivity.
    + destruct (above (landmark_at o_position_list 8)
                      (landmark_at o_position_list 6)); [| reflexivity].
      destruct (left_zone _ _), (right_zone _ _),
               (label_eq label "Left"), (label_eq label "Right");
        try discriminate Hlr; reflexivity.
    + destruct (above _ _ && above _ _); [| reflexivity].
      destruct (left_zone _ _), (right_zone _ _),
               (label_eq label "Left"), (label_eq label "Right");
        try discriminate Hlr; reflexivity.
    + reflexivity.
  - destruct o_position_list as [| p rest]; [reflexivity |].
    rewrite !frame_short; [reflexivity | simpl in *; lia |].
    rewrite length_map. simpl in *. lia.
Qed.
